(** * Jakopter video display: the producer/renderer handshake

    A shallow embedding of [video_display.c]: the SDL display thread, the
    feedback handshake over [feedback_mutex]/[feedback_cond], and the public
    entry point [video_display_frame].

    The C globals become the fields of [state]; SDL and pthread calls are
    recorded, in program order, in a log of [action]s tagged with the thread
    that performed them; the outcomes SDL reports (return codes, handles,
    delivered events) are read from an [sdl_outcomes] record supplied by the
    caller of the model.  Messages printed on stderr are not modelled. *)

From Stdlib Require Import ZArith List Bool Lia.
Import ListNotations.
Open Scope Z_scope.

(** ** Data *)

(** [typedef struct video_size { int w, h; }] *)
Record video_size := mk_size { vw : Z; vh : Z }.

(** [typedef enum feedback_msg] *)
Inductive feedback_msg := FDBK_NONE | FDBK_OK | FDBK_FAIL.

(** The part of [SDL_Event] the program uses: the type tag (a Uint32) and the
    two user pointers.  [data1] is the frame pointer (0 is NULL); [data2]
    points to a [video_size] living in the submitter's frame for the whole
    blocking call, so it is carried by value. *)
Record SDL_Event := mk_event { etype : Z; data1 : Z; data2 : video_size }.

(** SDL's built-in "window closed" event tag. *)
Definition SDL_QUIT : Z := 256.

Definition Uint32_max : Z := 4294967295.
Definition Uint32_wrap (x : Z) : Z := x mod 4294967296.

(** The two thread roles. *)
Inductive tid := Producer | Renderer.

(** The cross-thread shared variables whose accesses are logged. *)
Inductive shared_var :=
  V_initialized | V_current_width | V_current_height | V_display_fdbk.

(** Observable actions: pthread and SDL calls with their arguments and
    results, and reads/writes of the shared variables. *)
Inductive action :=
| A_mutex_lock
| A_mutex_unlock
| A_cond_signal
| A_cond_wait
| A_read (v : shared_var)
| A_write (v : shared_var)
| A_pthread_create (ret : Z)
| A_pthread_exit
| A_SDL_Init (ret : Z)
| A_SDL_CreateWindow (w h ret : Z)
| A_SDL_CreateRenderer (window ret : Z)
| A_SDL_RegisterEvents (n ret : Z)
| A_SDL_SetWindowSize (window w h : Z)
| A_SDL_DestroyTexture (tex : Z)
| A_SDL_CreateTexture (ren w h ret : Z)
| A_SDL_UpdateTexture (tex pixels pitch ret : Z)
| A_SDL_WaitEvent (ret : Z)
| A_SDL_PushEvent (e : SDL_Event)
| A_SDL_RenderClear (ren : Z)
| A_SDL_RenderCopy (ren tex : Z)
| A_SDL_RenderPresent (ren : Z)
| A_SDL_DestroyRenderer (ren : Z)
| A_SDL_DestroyWindow (window : Z)
| A_SDL_Quit
| A_video_set_stopped.

Definition entry : Type := tid * action.
Definition log := list entry.

(** Control state of the display thread: not existing, created but still in
    its initialisation, or inside the event loop with the content of its
    local [current_evt]. *)
Inductive thread_pc :=
| T_none
| T_starting
| T_running (current_evt : SDL_Event).

(** The file's static variables, SDL's event queue and the display thread. *)
Record state := mk_state {
  win : Z;
  renderer : Z;
  frameTex : Z;
  event_frame : Z;
  event_quit : Z;
  current_width : Z;
  current_height : Z;
  initialized : bool;
  display_fdbk : feedback_msg;
  queue : list SDL_Event;
  thread : thread_pc
}.

Definition set_win v s :=
  mk_state v (renderer s) (frameTex s) (event_frame s) (event_quit s)
    (current_width s) (current_height s) (initialized s) (display_fdbk s)
    (queue s) (thread s).
Definition set_renderer v s :=
  mk_state (win s) v (frameTex s) (event_frame s) (event_quit s)
    (current_width s) (current_height s) (initialized s) (display_fdbk s)
    (queue s) (thread s).
Definition set_frameTex v s :=
  mk_state (win s) (renderer s) v (event_frame s) (event_quit s)
    (current_width s) (current_height s) (initialized s) (display_fdbk s)
    (queue s) (thread s).
Definition set_event_frame v s :=
  mk_state (win s) (renderer s) (frameTex s) v (event_quit s)
    (current_width s) (current_height s) (initialized s) (display_fdbk s)
    (queue s) (thread s).
Definition set_event_quit v s :=
  mk_state (win s) (renderer s) (frameTex s) (event_frame s) v
    (current_width s) (current_height s) (initialized s) (display_fdbk s)
    (queue s) (thread s).
Definition set_current_width v s :=
  mk_state (win s) (renderer s) (frameTex s) (event_frame s) (event_quit s)
    v (current_height s) (initialized s) (display_fdbk s)
    (queue s) (thread s).
Definition set_current_height v s :=
  mk_state (win s) (renderer s) (frameTex s) (event_frame s) (event_quit s)
    (current_width s) v (initialized s) (display_fdbk s)
    (queue s) (thread s).
Definition set_initialized v s :=
  mk_state (win s) (renderer s) (frameTex s) (event_frame s) (event_quit s)
    (current_width s) (current_height s) v (display_fdbk s)
    (queue s) (thread s).
Definition set_display_fdbk v s :=
  mk_state (win s) (renderer s) (frameTex s) (event_frame s) (event_quit s)
    (current_width s) (current_height s) (initialized s) v
    (queue s) (thread s).
Definition set_queue v s :=
  mk_state (win s) (renderer s) (frameTex s) (event_frame s) (event_quit s)
    (current_width s) (current_height s) (initialized s) (display_fdbk s)
    v (thread s).
Definition set_thread v s :=
  mk_state (win s) (renderer s) (frameTex s) (event_frame s) (event_quit s)
    (current_width s) (current_height s) (initialized s) (display_fdbk s)
    (queue s) v.

(** What SDL answers during one scheduling quantum of the display thread. *)
Record sdl_outcomes := mk_outcomes {
  o_init : Z;                  (* SDL_Init *)
  o_win : Z;                   (* SDL_CreateWindow, 0 is NULL *)
  o_ren : Z;                   (* SDL_CreateRenderer, 0 is NULL *)
  o_reg : Z;                   (* SDL_RegisterEvents, a Uint32 *)
  o_tex : Z;                   (* SDL_CreateTexture, 0 is NULL *)
  o_upd : Z;                   (* SDL_UpdateTexture *)
  o_wait : Z;                  (* SDL_WaitEvent, 0 is an error *)
  o_pump : list SDL_Event;     (* native events SDL adds to its queue *)
  o_stack : SDL_Event          (* initial content of [current_evt] *)
}.

(** ** A state-and-log monad, with the running thread as an environment *)

Definition M (A : Type) : Type := tid -> state -> A * state * log.

Definition ret {A} (a : A) : M A := fun _ s => (a, s, []).

Definition bind {A B} (m : M A) (k : A -> M B) : M B :=
  fun t s =>
    let '(a, s1, l1) := m t s in
    let '(b, s2, l2) := k a t s1 in
    (b, s2, l1 ++ l2).

Notation "x <- m ;; k" := (bind m (fun x => k))
  (at level 61, m at next level, right associativity).
Notation "m ;; k" := (bind m (fun _ => k))
  (at level 61, right associativity).

Definition emit (a : action) : M unit := fun t s => (tt, s, [(t, a)]).
Definition gets {A} (f : state -> A) : M A := fun _ s => (f s, s, []).
Definition modify (f : state -> state) : M unit := fun _ s => (tt, f s, []).

(** Run [m] as thread [t]. *)
Definition run_as {A} (t : tid) (m : M A) : M A := fun _ s => m t s.

(** Accesses to the shared variables. *)
Definition rd {A} (v : shared_var) (f : state -> A) : M A :=
  emit (A_read v) ;; gets f.
Definition wr (v : shared_var) (f : state -> state) : M unit :=
  emit (A_write v) ;; modify f.

Definition pthread_mutex_lock : M unit := emit A_mutex_lock.
Definition pthread_mutex_unlock : M unit := emit A_mutex_unlock.
Definition pthread_cond_signal : M unit := emit A_cond_signal.

(** [SDL_PushEvent]: the event is appended to SDL's queue (the program never
    looks at the return value). *)
Definition SDL_PushEvent (e : SDL_Event) : M unit :=
  emit (A_SDL_PushEvent e) ;; modify (fun s => set_queue (queue s ++ [e]) s).

(** ** The display thread *)

(** [video_display_init] *)
Definition video_display_init (o : sdl_outcomes) (width height : Z) : M Z :=
  emit (A_SDL_Init (o_init o)) ;;
  if o_init o <? 0 then ret (-1) else
  emit (A_SDL_CreateWindow width height (o_win o)) ;;
  modify (set_win (o_win o)) ;;
  if o_win o =? 0 then ret (-1) else
  emit (A_SDL_CreateRenderer (o_win o) (o_ren o)) ;;
  modify (set_renderer (o_ren o)) ;;
  if o_ren o =? 0 then ret (-1) else
  emit (A_SDL_RegisterEvents 2 (o_reg o)) ;;
  modify (set_event_frame (o_reg o)) ;;
  if o_reg o =? Uint32_max then ret (-1) else
  modify (set_event_quit (Uint32_wrap (o_reg o + 1))) ;;
  ret 0.

(** [video_display_set_size] *)
Definition video_display_set_size (o : sdl_outcomes) (w h : Z) : M Z :=
  wn <- gets win ;;
  emit (A_SDL_SetWindowSize wn w h) ;;
  old <- gets frameTex ;;
  emit (A_SDL_DestroyTexture old) ;;
  rn <- gets renderer ;;
  emit (A_SDL_CreateTexture rn w h (o_tex o)) ;;
  modify (set_frameTex (o_tex o)) ;;
  if o_tex o =? 0 then ret (-1) else
  wr V_current_width (set_current_width w) ;;
  wr V_current_height (set_current_height h) ;;
  ret 0.

(** [video_display_clean] *)
Definition video_display_clean : M unit :=
  tx <- gets frameTex ;;
  emit (A_SDL_DestroyTexture tx) ;;
  rn <- gets renderer ;;
  emit (A_SDL_DestroyRenderer rn) ;;
  wn <- gets win ;;
  emit (A_SDL_DestroyWindow wn) ;;
  emit A_SDL_Quit.

(** The three drawing calls at the bottom of the loop body. *)
Definition redraw : M unit :=
  rn <- gets renderer ;;
  emit (A_SDL_RenderClear rn) ;;
  tx <- gets frameTex ;;
  emit (A_SDL_RenderCopy rn tx) ;;
  emit (A_SDL_RenderPresent rn).

(** [video_display_thread], from its entry to the [while]: the
    initialisation under the feedback lock.  The result is the local
    [stopped]. *)
Definition thread_start (o : sdl_outcomes) : M bool :=
  pthread_mutex_lock ;;
  w <- rd V_current_width current_width ;;
  h <- rd V_current_height current_height ;;
  r <- video_display_init o w h ;;
  stopped <-
    (if r <? 0 then
       wr V_display_fdbk (set_display_fdbk FDBK_FAIL) ;; ret true
     else
       w' <- rd V_current_width current_width ;;
       h' <- rd V_current_height current_height ;;
       r' <- video_display_set_size o w' h' ;;
       if r' <? 0 then
         wr V_display_fdbk (set_display_fdbk FDBK_FAIL) ;; ret true
       else
         wr V_initialized (set_initialized true) ;;
         wr V_display_fdbk (set_display_fdbk FDBK_OK) ;;
         ret false) ;;
  pthread_cond_signal ;;
  pthread_mutex_unlock ;;
  ret stopped.

(** [SDL_WaitEvent(&current_evt)].  SDL first adds the native events it has
    collected.  On an error it returns 0 and leaves [current_evt] as it was;
    otherwise it removes the head of the queue into [current_evt].  With an
    empty queue and no error the thread stays blocked inside the call:
    [None]. *)
Definition SDL_WaitEvent (o : sdl_outcomes) (current_evt : SDL_Event)
  : M (option (Z * SDL_Event)) :=
  q <- gets queue ;;
  if o_wait o =? 0 then
    modify (set_queue (q ++ o_pump o)) ;;
    emit (A_SDL_WaitEvent 0) ;;
    ret (Some (0, current_evt))
  else
    match q ++ o_pump o with
    | [] => ret None
    | e :: rest =>
        modify (set_queue rest) ;;
        emit (A_SDL_WaitEvent (o_wait o)) ;;
        ret (Some (o_wait o, e))
    end.

(** The handling of a frame event: the block guarded by
    [current_evt.type == event_frame].  [stopped] is the local flag on entry;
    the result is its value on exit. *)
Definition handle_frame (o : sdl_outcomes) (stopped : bool)
    (current_evt : SDL_Event) : M bool :=
  pthread_mutex_lock ;;
  let newsize := data2 current_evt in
  cw <- rd V_current_width current_width ;;
  differs <-
    (if negb (vw newsize =? cw) then ret true
     else ch <- rd V_current_height current_height ;;
          ret (negb (vh newsize =? ch))) ;;
  stopped1 <-
    (if differs then
       r <- video_display_set_size o (vw newsize) (vh newsize) ;;
       if r <? 0 then
         wr V_display_fdbk (set_display_fdbk FDBK_FAIL) ;; ret true
       else ret stopped
     else ret stopped) ;;
  stopped2 <-
    (if negb stopped1 then
       tx <- gets frameTex ;;
       pitch <- rd V_current_width current_width ;;
       emit (A_SDL_UpdateTexture tx (data1 current_evt) pitch (o_upd o)) ;;
       if o_upd o <? 0 then
         wr V_display_fdbk (set_display_fdbk FDBK_FAIL) ;; ret true
       else
         wr V_display_fdbk (set_display_fdbk FDBK_OK) ;; ret stopped1
     else ret stopped1) ;;
  pthread_cond_signal ;;
  pthread_mutex_unlock ;;
  ret stopped2.

(** The dispatch on the event type, after [SDL_WaitEvent] returned
    [wait_ret]. *)
Definition handle_event (o : sdl_outcomes) (wait_ret : Z)
    (current_evt : SDL_Event) : M bool :=
  let stopped := (wait_ret =? 0) in
  ef <- gets event_frame ;;
  eq <- gets event_quit ;;
  if etype current_evt =? ef then handle_frame o stopped current_evt
  else if etype current_evt =? eq then ret true
  else if etype current_evt =? SDL_QUIT then
    emit A_video_set_stopped ;; ret true
  else ret stopped.

(** One pass through the body of [while(!stopped)], once [SDL_WaitEvent] has
    returned. *)
Definition thread_body (o : sdl_outcomes) (wait_ret : Z)
    (current_evt : SDL_Event) : M bool :=
  stopped <- handle_event o wait_ret current_evt ;;
  redraw ;;
  ret stopped.

(** After the loop: cleanup, [initialized = 0], [pthread_exit]. *)
Definition thread_end : M unit :=
  video_display_clean ;;
  wr V_initialized (set_initialized false) ;;
  emit A_pthread_exit ;;
  modify (set_thread T_none).

(** One scheduling quantum of the display thread: its initialisation, or one
    iteration of the loop, followed by the exit sequence when [stopped] got
    set.  A thread that does not exist, or that is blocked in
    [SDL_WaitEvent], does nothing. *)
Definition renderer_step (o : sdl_outcomes) : M unit :=
  pc <- gets thread ;;
  match pc with
  | T_none => ret tt
  | T_starting =>
      stopped <- thread_start o ;;
      if stopped : bool then thread_end
      else modify (set_thread (T_running (o_stack o)))
  | T_running current_evt =>
      got <- SDL_WaitEvent o current_evt ;;
      match got with
      | None => ret tt
      | Some (wait_ret, evt) =>
          stopped <- thread_body o wait_ret evt ;;
          if stopped : bool then thread_end
          else modify (set_thread (T_running evt))
      end
  end.

(** The display thread left to run for several quanta in a row. *)
Fixpoint renderer_run (os : list sdl_outcomes) : M unit :=
  match os with
  | [] => ret tt
  | o :: rest => renderer_step o ;; renderer_run rest
  end.

(** ** The submitting side *)

(** [pthread_cond_wait]: the caller sleeps, and the display thread gets a
    quantum before the caller is woken (by the signal, or spuriously) and
    holds the lock again.  This fixes one schedule among those the detached
    thread of the C program can follow: there the thread also runs while
    the caller is awake, and within an iteration it signals before it
    redraws and exits.  What each thread does, in which order, and what a
    call returns do not depend on that choice; the statics at the very
    moment a call returns and the number of times a caller sleeps do. *)
Definition pthread_cond_wait (o : sdl_outcomes) : M unit :=
  emit A_cond_wait ;; run_as Renderer (renderer_step o).

(** [while(display_fdbk == FDBK_NONE) pthread_cond_wait(...)].  [sched]
    lists the quanta the display thread gets while the caller sleeps; [None]
    when the caller is still asleep at the end of [sched]. *)
Fixpoint wait_loop (sched : list sdl_outcomes) : M (option feedback_msg) :=
  v <- rd V_display_fdbk display_fdbk ;;
  match v with
  | FDBK_NONE =>
      match sched with
      | [] => ret None
      | o :: rest => pthread_cond_wait o ;; wait_loop rest
      end
  | _ => ret (Some v)
  end.

(** The locked block that ends [video_display_create_thread] and
    [video_display_frame]. *)
Definition await_feedback (sched : list sdl_outcomes) : M (option Z) :=
  pthread_mutex_lock ;;
  woke <- wait_loop sched ;;
  match woke with
  | None => ret None
  | Some _ =>
      v <- rd V_display_fdbk display_fdbk ;;
      pthread_mutex_unlock ;;
      ret (Some (match v with FDBK_OK => 0 | _ => -1 end))
  end.

(** [video_display_stop_thread] *)
Definition video_display_stop_thread : M unit :=
  i <- rd V_initialized initialized ;;
  if negb i then ret tt
  else
    eq <- gets event_quit ;;
    SDL_PushEvent (mk_event eq 0 (mk_size 0 0)).

(** [video_display_create_thread].  [rc] is what [pthread_create] returns;
    the thread exists when it is 0. *)
Definition video_display_create_thread (rc : Z) (sched : list sdl_outcomes)
  : M (option Z) :=
  wr V_display_fdbk (set_display_fdbk FDBK_NONE) ;;
  emit (A_pthread_create rc) ;;
  (if rc =? 0 then modify (set_thread T_starting) else ret tt) ;;
  if rc <? 0 then ret (Some (-1))
  else await_feedback sched.

(** [video_display_frame].  [sched1] and [sched2] are the quanta of the
    display thread during the startup wait and the frame wait; the result is
    [None] when the call has not returned by the end of them. *)
Definition video_display_frame (frame width height size : Z) (rc : Z)
    (sched1 sched2 : list sdl_outcomes) : M (option Z) :=
  if frame =? 0 then
    video_display_stop_thread ;; ret (Some 0)
  else
    i <- rd V_initialized initialized ;;
    started <-
      (if negb i then
         wr V_current_width (set_current_width width) ;;
         wr V_current_height (set_current_height height) ;;
         video_display_create_thread rc sched1
       else ret (Some 0)) ;;
    match started with
    | None => ret None
    | Some c =>
        if c <? 0 then ret (Some (-1))
        else
          wr V_display_fdbk (set_display_fdbk FDBK_NONE) ;;
          ef <- gets event_frame ;;
          SDL_PushEvent (mk_event ef frame (mk_size width height)) ;;
          await_feedback sched2
    end.

(** Entry point as the callers see it: run by a producer thread. *)
Definition submit (frame width height size rc : Z)
    (sched1 sched2 : list sdl_outcomes) (s : state) : option Z * state * log :=
  video_display_frame frame width height size rc sched1 sched2 Producer s.

(** ** Reading logs *)

(** The actions of thread [t] that satisfy [p], in order. *)
Definition proj (t : tid) (p : action -> bool) (l : log) : list action :=
  map snd
    (filter (fun e => match fst e, t with
                      | Producer, Producer | Renderer, Renderer => p (snd e)
                      | _, _ => false
                      end) l).

Definition is_signal (a : action) : bool :=
  match a with A_cond_signal => true | _ => false end.
Definition is_wait_event (a : action) : bool :=
  match a with A_SDL_WaitEvent _ => true | _ => false end.
Definition is_push (a : action) : bool :=
  match a with A_SDL_PushEvent _ => true | _ => false end.
Definition is_upload (a : action) : bool :=
  match a with A_SDL_UpdateTexture _ _ _ _ => true | _ => false end.
Definition is_render (a : action) : bool :=
  match a with
  | A_SDL_RenderClear _ | A_SDL_RenderCopy _ _ | A_SDL_RenderPresent _ => true
  | _ => false
  end.
Definition is_fdbk_write (a : action) : bool :=
  match a with A_write V_display_fdbk => true | _ => false end.
Definition is_init_write (a : action) : bool :=
  match a with A_write V_initialized => true | _ => false end.
(** Resizing the window and building a texture, then uploading into it. *)
Definition is_resize_or_upload (a : action) : bool :=
  match a with
  | A_SDL_SetWindowSize _ _ _ | A_SDL_CreateTexture _ _ _ _
  | A_SDL_UpdateTexture _ _ _ _ => true
  | _ => false
  end.
(** The handshake as the waiting side can observe it. *)
Definition is_handshake (a : action) : bool :=
  is_fdbk_write a || is_init_write a || is_signal a || is_wait_event a.

(** The four kinds of rendering resource, in the order they are acquired. *)
Inductive resource := R_library | R_window | R_renderer | R_texture.

Definition acquired (a : action) : option resource :=
  match a with
  | A_SDL_Init _ => Some R_library
  | A_SDL_CreateWindow _ _ _ => Some R_window
  | A_SDL_CreateRenderer _ _ => Some R_renderer
  | A_SDL_CreateTexture _ _ _ _ => Some R_texture
  | _ => None
  end.
Definition released (a : action) : option resource :=
  match a with
  | A_SDL_Quit => Some R_library
  | A_SDL_DestroyWindow _ => Some R_window
  | A_SDL_DestroyRenderer _ => Some R_renderer
  | A_SDL_DestroyTexture _ => Some R_texture
  | _ => None
  end.

Fixpoint keep_some {A} (l : list (option A)) : list A :=
  match l with
  | [] => []
  | Some a :: r => a :: keep_some r
  | None :: r => keep_some r
  end.

(** Does the startup of the display thread fail in state [s] under [o]?
    Read off the two return codes the thread tests. *)
Definition init_fails (o : sdl_outcomes) (s : state) : bool :=
  fst (fst (video_display_init o (current_width s) (current_height s)
              Renderer s)) <? 0.
Definition build_fails (o : sdl_outcomes) (s : state) : bool :=
  let s1 := snd (fst (video_display_init o (current_width s)
                        (current_height s) Renderer s)) in
  fst (fst (video_display_set_size o (current_width s1) (current_height s1)
              Renderer s1)) <? 0.
Definition startup_fails (o : sdl_outcomes) (s : state) : bool :=
  init_fails o s || build_fails o s.

(** A frame event asks for a resize when its size is not the current one. *)
Definition size_differs (e : SDL_Event) (s : state) : bool :=
  negb (vw (data2 e) =? current_width s)
  || negb (vh (data2 e) =? current_height s).

(** The log of the exit sequence of the display thread in state [s]. *)
Definition exit_log (s : state) : log :=
  [ (Renderer, A_SDL_DestroyTexture (frameTex s));
    (Renderer, A_SDL_DestroyRenderer (renderer s));
    (Renderer, A_SDL_DestroyWindow (win s));
    (Renderer, A_SDL_Quit);
    (Renderer, A_write V_initialized);
    (Renderer, A_pthread_exit) ].

(** ** Observations used in the statements *)

Definition is_feedback (a : action) : bool := is_fdbk_write a || is_signal a.

(** The display thread is inside its loop and [SDL_WaitEvent] is about to
    deliver the frame event [e]. *)
Definition frame_event_next (o : sdl_outcomes) (s : state) (e : SDL_Event)
  : Prop :=
  (exists cur, thread s = T_running cur)
  /\ (exists rest, queue s ++ o_pump o = e :: rest)
  /\ etype e = event_frame s
  /\ o_wait o <> 0.

(** The order in which a log acquires, and releases, rendering resources. *)
Definition acquisition_order (l : log) : list resource :=
  keep_some (map (fun e => acquired (snd e)) l).
Definition release_order (l : log) : list resource :=
  keep_some (map (fun e => released (snd e)) l).

(** What an iteration does for the event itself, as opposed to the redraw
    and the exit sequence. *)
Definition is_event_handling (a : action) : bool :=
  match a with
  | A_SDL_WaitEvent _ | A_mutex_lock | A_mutex_unlock | A_cond_signal
  | A_SDL_SetWindowSize _ _ _ | A_SDL_CreateTexture _ _ _ _
  | A_SDL_UpdateTexture _ _ _ _ | A_video_set_stopped
  | A_write V_display_fdbk | A_read _ => true
  | _ => false
  end.

(** The display thread is inside its loop and [SDL_WaitEvent] returns in the
    next quantum (with an event or with an error). *)
Definition iteration_next (o : sdl_outcomes) (s : state) : Prop :=
  (exists cur, thread s = T_running cur)
  /\ (o_wait o = 0 \/ queue s ++ o_pump o <> []).

(** The redraw at the bottom of the loop body, for the handles in [s]. *)
Definition redraw_actions (s : state) : list action :=
  [ A_SDL_RenderClear (renderer s);
    A_SDL_RenderCopy (renderer s) (frameTex s);
    A_SDL_RenderPresent (renderer s) ].

(** The log of the initialisation of a display thread started in [s]. *)
Definition startup_log (o : sdl_outcomes) (s : state) : log :=
  snd (thread_start o Renderer s).
Arguments startup_log : simpl never.

(** The return code computed from the feedback. *)
Definition code_of (v : feedback_msg) : Z :=
  match v with FDBK_OK => 0 | _ => -1 end.

(** The state right after the submitter has reset the feedback and pushed
    the event [e]. *)
Definition pushed (e : SDL_Event) (s : state) : state :=
  set_queue (queue s ++ [e]) (set_display_fdbk FDBK_NONE s).

(** The event pushed by [video_display_stop_thread]. *)
Definition quit_event (s : state) : SDL_Event :=
  mk_event (event_quit s) 0 (mk_size 0 0).

(** The state in which the new display thread starts: the submitter has
    recorded the size, reset the feedback and created the thread. *)
Definition started (width height : Z) (s : state) : state :=
  set_thread T_starting
    (set_display_fdbk FDBK_NONE
       (set_current_height height (set_current_width width s))).


(** ** Lock discipline *)

Definition same_tid (a b : tid) : bool :=
  match a, b with
  | Producer, Producer | Renderer, Renderer => true
  | _, _ => false
  end.

(** Does thread [t] hold the feedback mutex after the log [l], given whether
    it held it before?  ([pthread_cond_wait] gives the mutex up while the
    caller sleeps and returns with it held.) *)
Fixpoint held_after (t : tid) (held : bool) (l : log) : bool :=
  match l with
  | [] => held
  | (t', a) :: rest =>
      if same_tid t' t then
        match a with
        | A_mutex_lock => held_after t true rest
        | A_mutex_unlock => held_after t false rest
        | _ => held_after t held rest
        end
      else held_after t held rest
  end.

(** The accesses to shared variables that thread [t] makes in [l] while it
    does not hold the feedback mutex. *)
Fixpoint unguarded (t : tid) (held : bool) (l : log) : list action :=
  match l with
  | [] => []
  | (t', a) :: rest =>
      if same_tid t' t then
        match a with
        | A_mutex_lock => unguarded t true rest
        | A_mutex_unlock => unguarded t false rest
        | A_read _ | A_write _ =>
            if held then unguarded t held rest
            else a :: unguarded t held rest
        | _ => unguarded t held rest
        end
      else unguarded t held rest
  end.

(** Logs in which only the display thread acts. *)
Definition renderer_only (l : log) : Prop :=
  Forall (fun e => fst e = Renderer) l.

(** The only access the display thread makes without the lock. *)
Definition renderer_lockfree (a : action) : Prop := a = A_write V_initialized.

(** What the submitter does while it waits is reading the feedback and
    sleeping; anything else counts as not waiting. *)
Definition not_waiting (a : action) : bool :=
  match a with
  | A_read V_display_fdbk | A_cond_wait => false
  | _ => true
  end.

(** The facts about a stretch of log produced while the submitter holds the
    mutex and waits: it only reads the feedback and sleeps, it touches shared variables only
    under the lock and still holds the lock at the end, and the display
    thread keeps to its own discipline. *)
Definition waiting_log (l : log) : Prop :=
  proj Producer not_waiting l = []
  /\ unguarded Producer true l = []
  /\ held_after Producer true l = true
  /\ Forall renderer_lockfree (unguarded Renderer false l)
  /\ held_after Renderer false l = false.

(** The discipline in which both threads make every access under the
    mutex. *)
Definition lock_discipline (l : log) : Prop :=
  unguarded Producer false l = [] /\ unguarded Renderer false l = [].

(** The accesses the submitting side makes without the lock. *)
Definition producer_lockfree (a : action) : Prop :=
  a = A_read V_initialized
  \/ a = A_write V_current_width
  \/ a = A_write V_current_height
  \/ a = A_write V_display_fdbk.

(** ** A concrete session *)

Definition no_event : SDL_Event := mk_event 0 0 (mk_size 0 0).

(** The static variables as the C file initialises them, and no thread. *)
Definition fresh : state :=
  mk_state 0 0 0 0 0 0 0 false FDBK_NONE [] T_none.

(** SDL succeeding everywhere, with 0x8000 as the first user event tag. *)
Definition sdl_ok : sdl_outcomes :=
  mk_outcomes 0 1 2 32768 3 0 1 [] no_event.

(** SDL unable to initialise. *)
Definition sdl_down : sdl_outcomes :=
  mk_outcomes (-1) 0 0 0 0 0 1 [] no_event.

(** SDL unable to build a texture. *)
Definition sdl_no_texture : sdl_outcomes :=
  mk_outcomes 0 1 2 32768 0 0 1 [] no_event.

(** The state after a first 640x480 frame has been displayed. *)
Definition after_first_frame : state :=
  snd (fst (submit 7 640 480 460800 0 [sdl_ok] [sdl_ok] fresh)).

(** A second frame, of another size, waiting in the queue of the session
    that displayed the first one. *)
Definition resize_request : SDL_Event := mk_event 32768 8 (mk_size 1280 720).
Definition with_resize_request : state := pushed resize_request after_first_frame.

(** The same session after a call with a null frame. *)
Definition with_quit_request : state :=
  snd (fst (submit 0 0 0 0 0 [] [] after_first_frame)).

(** ** Further observations *)

(** The event the loop body dispatches on in the next quantum of a display
    thread that is in its loop: the stale content of [current_evt] when
    [SDL_WaitEvent] fails, the head of the queue otherwise. *)
Definition dispatched (o : sdl_outcomes) (s : state) : option SDL_Event :=
  match thread s with
  | T_running cur =>
      if o_wait o =? 0 then Some cur else hd_error (queue s ++ o_pump o)
  | _ => None
  end.

(** Uses of the feedback channel by the display thread. *)
Definition is_channel (a : action) : bool :=
  match a with
  | A_mutex_lock | A_mutex_unlock | A_cond_signal | A_write V_display_fdbk =>
      true
  | _ => false
  end.

Definition is_set_stopped (a : action) : bool :=
  match a with A_video_set_stopped => true | _ => false end.

(** The textures the display thread obtains from [SDL_CreateTexture] and the
    ones it hands to [SDL_DestroyTexture], in order. *)
Fixpoint textures_created (l : log) : list Z :=
  match l with
  | [] => []
  | (Renderer, A_SDL_CreateTexture _ _ _ tex) :: rest =>
      tex :: textures_created rest
  | _ :: rest => textures_created rest
  end.

Fixpoint textures_destroyed (l : log) : list Z :=
  match l with
  | [] => []
  | (Renderer, A_SDL_DestroyTexture tex) :: rest =>
      tex :: textures_destroyed rest
  | _ :: rest => textures_destroyed rest
  end.




(** Does the handling of the frame event [e] fail in state [s] under [o]:
    the resize, when one is needed, or else the upload? *)
Definition frame_fails (o : sdl_outcomes) (e : SDL_Event) (s : state) : bool :=
  (size_differs e s && (o_tex o =? 0)) || (o_upd o <? 0).

(** The release calls of a log, with their arguments. *)
Definition is_release_call (a : action) : bool :=
  match a with
  | A_SDL_DestroyTexture _ | A_SDL_DestroyRenderer _ | A_SDL_DestroyWindow _
  | A_SDL_Quit => true
  | _ => false
  end.

(** The four release calls of [video_display_clean] on the handles in [s]. *)
Definition clean_actions (s : state) : list action :=
  [ A_SDL_DestroyTexture (frameTex s);
    A_SDL_DestroyRenderer (renderer s);
    A_SDL_DestroyWindow (win s);
    A_SDL_Quit ].

(** The resize and upload calls the frame event [e] asks of a display in
    state [s] when SDL answers [o]: a resize first when the size differs,
    the upload unless that resize failed. *)
Definition frame_calls (o : sdl_outcomes) (e : SDL_Event) (s : state)
  : list action :=
  if size_differs e s then
    [ A_SDL_SetWindowSize (win s) (vw (data2 e)) (vh (data2 e));
      A_SDL_CreateTexture (renderer s) (vw (data2 e)) (vh (data2 e))
        (o_tex o) ]
    ++ (if o_tex o =? 0 then []
        else [ A_SDL_UpdateTexture (o_tex o) (data1 e) (vw (data2 e))
                 (o_upd o) ])
  else
    [ A_SDL_UpdateTexture (frameTex s) (data1 e) (current_width s)
        (o_upd o) ].

(** ** Further concrete situations *)

(** SDL failing in [SDL_WaitEvent]. *)
Definition sdl_wait_error : sdl_outcomes :=
  mk_outcomes 0 1 2 32768 3 0 0 [] no_event.

(** A key press (SDL_KEYDOWN) and a window close (SDL_QUIT), each alone in
    the queue of the session that displayed the first frame. *)
Definition key_event : SDL_Event := mk_event 768 0 (mk_size 0 0).
Definition close_event : SDL_Event := mk_event 256 0 (mk_size 0 0).
Definition with_key_event : state := set_queue [key_event] after_first_frame.
Definition with_close_event : state :=
  set_queue [close_event] after_first_frame.

(** * Properties *)

(** ** Proof support *)

Ltac unfold_model :=
  unfold renderer_step, thread_start, thread_body, thread_end, handle_event,
    handle_frame, redraw, SDL_WaitEvent, video_display_init,
    video_display_set_size, video_display_clean, SDL_PushEvent,
    pthread_mutex_lock, pthread_mutex_unlock, pthread_cond_signal,
    rd, wr, bind, ret, emit, gets, modify, run_as.

Ltac split_if :=
  match goal with
  | |- context [if ?c then _ else _] =>
      lazymatch c with
      | context [if _ then _ else _] => fail
      | 0 <? 0 => change c with false
      | -1 <? 0 => change c with true
      | _ => destruct c eqn:?
      end
  end.

Ltac known :=
  repeat match goal with
         | H : ?c = _ |- context [?c] => rewrite H
         end.

Ltac norm :=
  cbn -[Z.ltb Z.eqb Uint32_max Uint32_wrap SDL_QUIT];
  change (-1 <? 0) with true; change (0 <? 0) with false;
  known; rewrite ?Z.eqb_refl;
  cbn -[Z.ltb Z.eqb Uint32_max Uint32_wrap SDL_QUIT].

Ltac crunch := repeat (norm; try split_if); norm.

(** ** The display thread *)

(** The startup fails exactly when one of the five SDL calls reports an
    error. *)
Lemma startup_fails_spec (o : sdl_outcomes) (s : state) :
  startup_fails o s =
  (o_init o <? 0) || (o_win o =? 0) || (o_ren o =? 0)
  || (o_reg o =? Uint32_max) || (o_tex o =? 0).
Proof.
  unfold startup_fails, init_fails, build_fails. unfold_model.
  destruct (o_init o <? 0) eqn:E1; [reflexivity|].
  destruct (o_win o =? 0) eqn:E2; [reflexivity|].
  destruct (o_ren o =? 0) eqn:E3; [reflexivity|].
  destruct (o_reg o =? Uint32_max) eqn:E4; [reflexivity|].
  destruct (o_tex o =? 0) eqn:E5; reflexivity.
Qed.

(** C5, Starting phase.  A display thread that has just been created runs
    its initialisation in one go.  If the initialisation or the first
    texture build fails, it writes [FDBK_FAIL], signals once, and goes
    straight to its exit sequence: it never waits for an event, the queue is
    untouched, [initialized] is false and the thread is gone.  If both
    succeed it sets [initialized], writes [FDBK_OK], signals once (in that
    order) and is then inside the event loop. *)
Theorem C5_starting_phase (o : sdl_outcomes) (s : state) :
  thread s = T_starting ->
  let '(_, s', l) := renderer_step o Renderer s in
  if startup_fails o s then
    display_fdbk s' = FDBK_FAIL
    /\ proj Renderer is_handshake l =
         [A_write V_display_fdbk; A_cond_signal; A_write V_initialized]
    /\ initialized s' = false
    /\ thread s' = T_none
    /\ queue s' = queue s
  else
    display_fdbk s' = FDBK_OK
    /\ proj Renderer is_handshake l =
         [A_write V_initialized; A_write V_display_fdbk; A_cond_signal]
    /\ initialized s' = true
    /\ thread s' = T_running (o_stack o)
    /\ queue s' = queue s.
Proof.
  intros Hpc. rewrite startup_fails_spec.
  unfold_model. rewrite Hpc.
  destruct (o_init o <? 0) eqn:E1; [cbn; auto 6|].
  destruct (o_win o =? 0) eqn:E2; [cbn; auto 6|].
  destruct (o_ren o =? 0) eqn:E3; [cbn; auto 6|].
  destruct (o_reg o =? Uint32_max) eqn:E4; [cbn; auto 6|].
  destruct (o_tex o =? 0) eqn:E5; cbn; auto 6.
Qed.

Ltac frame_setup Hnext :=
  destruct Hnext as [[cur Hpc] [[rest Hq] [Hty Hw]]];
  apply Z.eqb_neq in Hw;
  unfold size_differs; unfold_model; crunch.

(** C6, frame event in the Running state.  The iteration writes the feedback
    result exactly once and then signals exactly once, and the result is not
    [FDBK_NONE].  A failed resize gives [FDBK_FAIL], no upload at all, and
    the thread leaves through its exit sequence; a failed upload gives
    [FDBK_FAIL] and the same exit; otherwise the result is [FDBK_OK] and the
    thread stays in the loop. *)
Theorem C6_frame_feedback (o : sdl_outcomes) (s : state) (e : SDL_Event) :
  frame_event_next o s e ->
  let '(_, s', l) := renderer_step o Renderer s in
  proj Renderer is_feedback l = [A_write V_display_fdbk; A_cond_signal]
  /\ display_fdbk s' <> FDBK_NONE
  /\ if size_differs e s && (o_tex o =? 0) then
       display_fdbk s' = FDBK_FAIL
       /\ proj Renderer is_upload l = []
       /\ thread s' = T_none /\ initialized s' = false
     else if o_upd o <? 0 then
       display_fdbk s' = FDBK_FAIL
       /\ thread s' = T_none /\ initialized s' = false
     else
       display_fdbk s' = FDBK_OK
       /\ thread s' = T_running e /\ initialized s' = initialized s.
Proof.
  intros Hnext. frame_setup Hnext;
    repeat split; try reflexivity; discriminate.
Qed.

(** C2, resizing on a frame event.  When the size carried by the event
    differs from the current one, the iteration calls [SDL_SetWindowSize]
    and [SDL_CreateTexture] with the new size exactly once, before the
    upload (which follows when the texture was built), and the new size
    becomes the current one once the texture is built.  When the size is
    the current one, there is no resize: the only such call is the upload,
    and the current size does not change. *)
Theorem C2_resize_once (o : sdl_outcomes) (s : state) (e : SDL_Event) :
  frame_event_next o s e ->
  let w := vw (data2 e) in
  let h := vh (data2 e) in
  let '(_, s', l) := renderer_step o Renderer s in
  if size_differs e s then
    proj Renderer is_resize_or_upload l =
      [A_SDL_SetWindowSize (win s) w h;
       A_SDL_CreateTexture (renderer s) w h (o_tex o)]
      ++ (if o_tex o =? 0 then []
          else [A_SDL_UpdateTexture (o_tex o) (data1 e) w (o_upd o)])
    /\ (current_width s', current_height s') =
       (if o_tex o =? 0 then (current_width s, current_height s) else (w, h))
  else
    proj Renderer is_resize_or_upload l =
      [A_SDL_UpdateTexture (frameTex s) (data1 e) (current_width s) (o_upd o)]
    /\ (current_width s', current_height s') =
       (current_width s, current_height s).
Proof.
  intros Hnext. frame_setup Hnext; repeat split; reflexivity.
Qed.

Ltac iteration_setup Hnext o s :=
  destruct Hnext as [[cur Hpc] Hret];
  unfold_model; rewrite Hpc;
  cbn -[Z.ltb Z.eqb SDL_QUIT];
  destruct (o_wait o =? 0) eqn:Hw;
  [ | destruct (queue s ++ o_pump o) as [|? ?] eqn:Hq;
      [ exfalso; destruct Hret as [H0|Hne];
        [ apply Z.eqb_neq in Hw; contradiction | apply Hne; reflexivity ] | ] ];
  crunch.

(** A successful startup acquires the library, the window, the renderer and
    the texture, in this order. *)
Lemma startup_acquisition_order (o : sdl_outcomes) (s : state) :
  startup_fails o s = false ->
  acquisition_order (startup_log o s) =
    [R_library; R_window; R_renderer; R_texture].
Proof.
  rewrite startup_fails_spec. intros H. unfold startup_log.
  repeat (apply orb_false_iff in H; destruct H as [H ?]).
  unfold_model. crunch. reflexivity.
Qed.

(** A thread that has exited does nothing more, whatever it is offered. *)
Lemma renderer_run_none (os : list sdl_outcomes) (t : tid) (s : state) :
  thread s = T_none -> renderer_run os t s = (tt, s, []).
Proof.
  intros H. induction os as [|o os IH]; [reflexivity|].
  cbn [renderer_run]. unfold bind at 1. unfold renderer_step at 1.
  unfold bind, gets, ret. rewrite H. cbn. rewrite IH. reflexivity.
Qed.

(** C7, leaving the loop.  Whenever an iteration ends with the thread gone,
    the log of that iteration ends with the exit sequence: texture,
    renderer, window, library — the reverse of the order in which a
    successful startup acquired them — then the write that clears
    [initialized], then [pthread_exit]; [initialized] is false and the
    thread takes no further step.  A quit event, a window-close event and an
    error of [SDL_WaitEvent] each end the thread in this way. *)
Theorem C7_exit_sequence (o : sdl_outcomes) (s : state) :
  iteration_next o s ->
  let '(_, s', l) := renderer_step o Renderer s in
  (thread s' = T_none ->
     (exists pre, l = pre ++ exit_log s')
     /\ (forall o0 s0, startup_fails o0 s0 = false ->
           release_order (exit_log s') =
           rev (acquisition_order (startup_log o0 s0)))
     /\ initialized s' = false
     /\ forall os, renderer_run os Renderer s' = (tt, s', []))
  /\ (o_wait o = 0 -> thread s' = T_none)
  /\ (forall e rest, o_wait o <> 0 -> queue s ++ o_pump o = e :: rest ->
        etype e <> event_frame s ->
        etype e = event_quit s \/ etype e = SDL_QUIT ->
        thread s' = T_none).
Proof.
  intros Hnext. iteration_setup Hnext o s.
  all: split;
    [ intros Hgone;
      first
        [ discriminate Hgone
        | split;
          [ match goal with
            | |- exists pre, ?l = _ =>
                exists (firstn (length l - 6) l); reflexivity
            end
          | split;
            [ intros ? ? Hok; rewrite (startup_acquisition_order _ _ Hok);
              reflexivity
            | split;
              [ reflexivity
              | intros os; apply renderer_run_none; reflexivity ] ] ] ]
    | split;
      [ intros H0; first [ reflexivity | rewrite H0 in Hw; discriminate Hw ]
      | intros ? ? Hw' Hq' Hnf Hty ] ].
  all: try reflexivity.
  all: exfalso; inversion Hq'; subst;
    repeat match goal with
           | H : (_ =? _) = true |- _ => apply Z.eqb_eq in H
           | H : (_ =? _) = false |- _ => apply Z.eqb_neq in H
           end;
    destruct Hty; congruence.
Qed.

(** C8, one redraw per iteration.  Whatever [SDL_WaitEvent] returned — a
    frame event, a quit event, a window-close event, any other event, or an
    error — the iteration performs the three drawing calls exactly once, in
    the order clear, copy, present, on the texture as the handling left it.
    They come after the whole handling of the event: what follows them in
    the iteration is nothing, or the exit sequence. *)
Theorem C8_redraw_once (o : sdl_outcomes) (s : state) :
  iteration_next o s ->
  let '(_, s', l) := renderer_step o Renderer s in
  proj Renderer is_render l = redraw_actions s'
  /\ exists pre post,
       l = pre ++ map (pair Renderer) (redraw_actions s') ++ post
       /\ proj Renderer is_wait_event pre = [A_SDL_WaitEvent (o_wait o)]
       /\ proj Renderer is_render pre = []
       /\ proj Renderer is_event_handling post = []
       /\ (post = [] \/ post = exit_log s').
Proof.
  intros Hnext. iteration_setup Hnext o s.
  all: split; [ reflexivity | ].
  all: try (apply Z.eqb_eq in Hw; rewrite Hw).
  all: first
    [ match goal with
      | |- exists pre post, ?l = _ /\ _ =>
          exists (firstn (length l - 3) l), [];
          solve [ repeat split; first [ reflexivity | left; reflexivity ] ]
      end
    | match goal with
      | |- exists pre post, ?l = _ /\ _ /\ _ /\ _ /\ (_ \/ _ = ?x) =>
          exists (firstn (length l - 9) l), x;
          solve [ repeat split; first [ reflexivity | right; reflexivity ] ]
      end ].
Qed.

(** ** Logs of the two threads *)

Lemma held_after_app (t : tid) (l1 l2 : log) (held : bool) :
  held_after t held (l1 ++ l2) = held_after t (held_after t held l1) l2.
Proof.
  revert held. induction l1 as [|[t' a] l1 IH]; intros held; [reflexivity|].
  cbn. destruct (same_tid t' t); [destruct a|]; apply IH.
Qed.

Lemma unguarded_app (t : tid) (l1 l2 : log) (held : bool) :
  unguarded t held (l1 ++ l2) =
  unguarded t held l1 ++ unguarded t (held_after t held l1) l2.
Proof.
  revert held. induction l1 as [|[t' a] l1 IH]; intros held; [reflexivity|].
  cbn. destruct (same_tid t' t); [destruct a|]; try apply IH;
    destruct held; cbn; rewrite IH; reflexivity.
Qed.

Lemma proj_app (t : tid) (p : action -> bool) (l1 l2 : log) :
  proj t p (l1 ++ l2) = proj t p l1 ++ proj t p l2.
Proof. unfold proj. rewrite filter_app, map_app. reflexivity. Qed.

Lemma proj_renderer_skip (p : action -> bool) (a : action) (l : log) :
  proj Renderer p ((Producer, a) :: l) = proj Renderer p l.
Proof. reflexivity. Qed.


Lemma renderer_only_proj (p : action -> bool) (l : log) :
  renderer_only l -> proj Producer p l = [].
Proof.
  induction 1 as [|[t a] l Ht _ IH]; [reflexivity|].
  cbn in Ht. subst t. exact IH.
Qed.

Lemma renderer_only_held (held : bool) (l : log) :
  renderer_only l -> held_after Producer held l = held.
Proof.
  induction 1 as [|[t a] l Ht _ IH]; [reflexivity|].
  cbn in Ht. subst t. exact IH.
Qed.

Lemma renderer_only_unguarded (held : bool) (l : log) :
  renderer_only l -> unguarded Producer held l = [].
Proof.
  induction 1 as [|[t a] l Ht _ IH]; [reflexivity|].
  cbn in Ht. subst t. exact IH.
Qed.

(** What one quantum of the display thread contributes to a log: only its
    own actions, the mutex released at the end, and no access outside the
    lock other than the clearing of [initialized] on exit. *)
Lemma renderer_step_log (o : sdl_outcomes) (s : state) :
  let l := snd (renderer_step o Renderer s) in
  renderer_only l
  /\ held_after Renderer false l = false
  /\ Forall renderer_lockfree (unguarded Renderer false l).
Proof.
  unfold renderer_only, renderer_lockfree.
  destruct (thread s) as [| |cur] eqn:Hpc.
  - unfold_model. rewrite Hpc. cbn. auto.
  - unfold_model. rewrite Hpc. crunch; repeat split;
      repeat (constructor; try reflexivity).
  - unfold_model. rewrite Hpc. cbn -[Z.ltb Z.eqb SDL_QUIT].
    destruct (o_wait o =? 0) eqn:Hw;
      [ | destruct (queue s ++ o_pump o) as [|e rest] eqn:Hq ];
      crunch; repeat split; repeat (constructor; try reflexivity).
Qed.

Lemma waiting_log_app (l1 l2 : log) :
  waiting_log l1 -> waiting_log l2 -> waiting_log (l1 ++ l2).
Proof.
  intros (A1 & B1 & C1 & D1 & E1) (A2 & B2 & C2 & D2 & E2).
  unfold waiting_log.
  rewrite proj_app, !unguarded_app, !held_after_app, A1, A2, B1, C1, B2, C2,
    E1, E2.
  repeat split. apply Forall_app. split; assumption.
Qed.

Lemma waiting_log_renderer (o : sdl_outcomes) (s : state) :
  waiting_log (snd (renderer_step o Renderer s)).
Proof.
  destruct (renderer_step_log o s) as (Ho & Hh & Hu).
  unfold waiting_log.
  rewrite renderer_only_proj, renderer_only_unguarded, renderer_only_held
    by assumption.
  auto.
Qed.

(** The wait loop: it ends with [Some v] only on a feedback value [v] that
    is not [FDBK_NONE], and with [None] (still asleep when the schedule runs
    out) only while the feedback is [FDBK_NONE]. *)
Lemma wait_loop_spec (sched : list sdl_outcomes) (s : state) :
  let '(r, s', l) := wait_loop sched Producer s in
  waiting_log l
  /\ match r with
     | None => display_fdbk s' = FDBK_NONE
     | Some v => display_fdbk s' = v /\ v <> FDBK_NONE
     end.
Proof.
  revert s. induction sched as [|o rest IH]; intros s.
  - cbn [wait_loop]. unfold bind, rd, emit, gets, ret. cbn.
    destruct (display_fdbk s) eqn:Hf; cbn;
      (split; [ unfold waiting_log; cbn; auto | ]);
      try (split; [assumption | discriminate]); assumption.
  - cbn [wait_loop]. unfold bind, rd, emit, gets, ret, pthread_cond_wait, run_as.
    cbn -[renderer_step wait_loop].
    destruct (display_fdbk s) eqn:Hf;
      try (cbn; split; [ unfold waiting_log; cbn; auto | ];
           split; [assumption | discriminate]).
    pose proof (waiting_log_renderer o s) as Hstep.
    destruct (renderer_step o Renderer s) as [[u s1] l1].
    specialize (IH s1). cbn -[wait_loop].
    destruct (wait_loop rest Producer s1) as [[r s'] l2].
    destruct IH as [Hl2 Hr]. cbn [snd] in Hstep.
    split; [ | exact Hr ].
    change ((Producer, A_read V_display_fdbk)
            :: (Producer, A_cond_wait) :: l1 ++ l2)
      with ([(Producer, A_read V_display_fdbk); (Producer, A_cond_wait)]
            ++ l1 ++ l2).
    apply waiting_log_app; [ unfold waiting_log; cbn; auto | ].
    apply waiting_log_app; assumption.
Qed.

Lemma proj_nil_weaken (t : tid) (p q : action -> bool) (l : log) :
  (forall a, p a = true -> q a = true) ->
  proj t q l = [] -> proj t p l = [].
Proof.
  intros Hpq. unfold proj.
  induction l as [|[t' a] l IH]; [reflexivity|].
  cbn. destruct t', t; cbn; try exact IH.
  - destruct (q a) eqn:Hq; [discriminate|].
    destruct (p a) eqn:Hp; [rewrite (Hpq a Hp) in Hq; discriminate|]. exact IH.
  - destruct (q a) eqn:Hq; [discriminate|].
    destruct (p a) eqn:Hp; [rewrite (Hpq a Hp) in Hq; discriminate|]. exact IH.
Qed.

(** The locked block at the end of both waiting functions: entered without
    the lock, it returns (with the lock released) exactly the code of a
    feedback that is not [FDBK_NONE]; until then the caller sleeps. *)
Lemma await_feedback_spec (sched : list sdl_outcomes) (s : state) :
  let '(r, s', l) := await_feedback sched Producer s in
  (exists l0, l = (Producer, A_mutex_lock) :: l0
              /\ proj Producer not_waiting l0
                 = match r with None => [] | Some _ => [A_mutex_unlock] end)
  /\ proj Producer is_push l = []
  /\ unguarded Producer false l = []
  /\ held_after Producer false l = match r with None => true | _ => false end
  /\ Forall renderer_lockfree (unguarded Renderer false l)
  /\ held_after Renderer false l = false
  /\ match r with
     | None => display_fdbk s' = FDBK_NONE
     | Some c => display_fdbk s' <> FDBK_NONE /\ c = code_of (display_fdbk s')
     end.
Proof.
  unfold await_feedback, bind, pthread_mutex_lock, pthread_mutex_unlock, emit,
    rd, gets, ret.
  pose proof (wait_loop_spec sched s) as H.
  destruct (wait_loop sched Producer s) as [[r s'] l1].
  destruct H as [(A & B & C & D & E) Hr].
  assert (P : proj Producer is_push l1 = []).
  { apply (proj_nil_weaken Producer is_push not_waiting); [ | exact A ].
    intros a Ha; destruct a; try discriminate; reflexivity. }
  destruct r as [v|]; cbn -[wait_loop].
  - destruct Hr as [Hv Hn]. rewrite Hv.
    split; [ eexists; split; [reflexivity|];
             rewrite proj_app, A; reflexivity | ].
    split;
      [ change (proj Producer is_push
                  (l1 ++ [(Producer, A_read V_display_fdbk);
                          (Producer, A_mutex_unlock)]) = []);
        rewrite proj_app, P; reflexivity | ].
    change ((Producer, A_mutex_lock)
            :: l1 ++ [(Producer, A_read V_display_fdbk);
                      (Producer, A_mutex_unlock)])
      with ([(Producer, A_mutex_lock)] ++ l1
            ++ [(Producer, A_read V_display_fdbk);
                (Producer, A_mutex_unlock)]).
    rewrite !unguarded_app, !held_after_app. cbn [held_after unguarded same_tid].
    cbn [app]. rewrite B, C, E. cbn. rewrite app_nil_r.
    repeat split; assumption.
  - rewrite app_nil_r.
    split; [ eexists; split; [reflexivity|]; exact A | ].
    repeat split; assumption.
Qed.

(** ** Submitting a frame *)

(** A waiter that finds a feedback returns at once, with one read. *)
Lemma wait_loop_ready_full (sched : list sdl_outcomes) (s : state) :
  display_fdbk s <> FDBK_NONE ->
  wait_loop sched Producer s =
  (Some (display_fdbk s), s, [(Producer, A_read V_display_fdbk)]).
Proof.
  intros H. destruct sched; cbn [wait_loop];
    unfold bind, rd, emit, gets, ret; cbn -[renderer_step wait_loop];
    destruct (display_fdbk s); try reflexivity; contradiction.
Qed.

(** Handling a frame event always leaves a feedback to read. *)
Lemma frame_step_feedback (o : sdl_outcomes) (s : state) (e : SDL_Event) :
  frame_event_next o s e ->
  display_fdbk (snd (fst (renderer_step o Renderer s))) <> FDBK_NONE.
Proof.
  intros Hnext. frame_setup Hnext; discriminate.
Qed.

(** With the frame event next in the queue, one quantum of the display
    thread is enough for the waiter to return. *)
Lemma await_feedback_returns (o : sdl_outcomes) (rest : list sdl_outcomes)
    (s : state) (e : SDL_Event) :
  display_fdbk s = FDBK_NONE ->
  frame_event_next o s e ->
  fst (fst (await_feedback (o :: rest) Producer s)) <> None.
Proof.
  intros Hnone Hnext.
  pose proof (frame_step_feedback o s e Hnext) as Hfb.
  unfold await_feedback, bind, pthread_mutex_lock, emit.
  cbn [wait_loop]. unfold bind, rd, emit, gets, ret, pthread_cond_wait, run_as.
  cbn -[renderer_step wait_loop]. rewrite Hnone.
  destruct (renderer_step o Renderer s) as [[u s1] l1].
  cbn [fst snd] in Hfb. cbn -[wait_loop].
  rewrite (wait_loop_ready_full rest s1 Hfb). cbn. discriminate.
Qed.

(** A quantum of the display thread that logs no write of the feedback
    leaves the feedback as it was. *)
Lemma step_keeps_feedback (o : sdl_outcomes) (s : state) :
  proj Renderer is_fdbk_write (snd (renderer_step o Renderer s)) = [] ->
  display_fdbk (snd (fst (renderer_step o Renderer s))) = display_fdbk s.
Proof.
  destruct (thread s) as [| |cur] eqn:Hpc.
  - unfold_model. rewrite Hpc. reflexivity.
  - unfold_model. rewrite Hpc. crunch; intros H; try discriminate H.
  - unfold_model. rewrite Hpc. cbn -[Z.ltb Z.eqb SDL_QUIT].
    destruct (o_wait o =? 0) eqn:Hw;
      [ | destruct (queue s ++ o_pump o) as [|ev rest] eqn:Hq ];
      crunch; intros H; try discriminate H; reflexivity.
Qed.

(** A waiter that starts on [FDBK_NONE] returns only after the display
    thread has written the feedback. *)
Lemma wait_loop_answered (sched : list sdl_outcomes) (s : state) :
  display_fdbk s = FDBK_NONE ->
  fst (fst (wait_loop sched Producer s)) <> None ->
  proj Renderer is_fdbk_write (snd (wait_loop sched Producer s)) <> [].
Proof.
  revert s. induction sched as [|o rest IH]; intros s Hnone.
  - cbn [wait_loop]. unfold bind, rd, emit, gets, ret. cbn.
    rewrite Hnone. cbn. intros H. contradiction.
  - cbn [wait_loop].
    unfold bind, rd, emit, gets, ret, pthread_cond_wait, run_as.
    cbn -[renderer_step wait_loop proj]. rewrite Hnone.
    pose proof (step_keeps_feedback o s) as Hkeep.
    destruct (renderer_step o Renderer s) as [[u s1] l1].
    cbn [fst snd] in Hkeep. cbn -[wait_loop proj].
    specialize (IH s1).
    destruct (wait_loop rest Producer s1) as [[r s2] l2].
    cbn [fst snd] in IH |- *. intros Hr.
    rewrite !proj_renderer_skip, proj_app.
    destruct (proj Renderer is_fdbk_write l1) as [|a l1'] eqn:E1.
    + cbn [app]. apply IH; [ | exact Hr ].
      rewrite Hkeep by reflexivity. exact Hnone.
    + discriminate.
Qed.

Lemma await_feedback_answered (sched : list sdl_outcomes) (s : state) :
  display_fdbk s = FDBK_NONE ->
  fst (fst (await_feedback sched Producer s)) <> None ->
  proj Renderer is_fdbk_write (snd (await_feedback sched Producer s)) <> [].
Proof.
  intros Hnone.
  pose proof (wait_loop_answered sched s Hnone) as H.
  unfold await_feedback, bind, pthread_mutex_lock, pthread_mutex_unlock, emit,
    rd, gets, ret.
  destruct (wait_loop sched Producer s) as [[[v|] s'] l]; cbn -[proj] in *.
  - intros _. rewrite proj_renderer_skip, proj_app.
    destruct (proj Renderer is_fdbk_write l) eqn:E; [ | discriminate ].
    exfalso. apply H; [discriminate | reflexivity].
  - intros Hr. contradiction.
Qed.

(** C1, submitting a frame to a running display.  The call resets the
    feedback, pushes exactly one event — a frame event carrying the frame
    pointer and the width and height — then takes the lock and waits.  It
    has not returned ([None]) only while the feedback is still [FDBK_NONE];
    when it returns, the feedback is [FDBK_OK] and the result 0, or the
    feedback is [FDBK_FAIL] and the result -1.  With the display thread in
    its loop on an empty queue, the first quantum in which [SDL_WaitEvent]
    works makes the call return.  The wait starts in the state [pushed e s],
    where the feedback is [FDBK_NONE] and the frame event is the last of the
    queue: the call is exactly the wait from that state.  As long as the
    display thread does not run, the call has not returned and that state
    stands; and the call returns only after the display thread has written
    the feedback. *)
Theorem C1_submit_running (frame width height size rc : Z)
    (sched1 sched2 : list sdl_outcomes) (s : state) :
  frame <> 0 ->
  initialized s = true ->
  let e := mk_event (event_frame s) frame (mk_size width height) in
  let '(r, s', l) := submit frame width height size rc sched1 sched2 s in
  (exists l0,
     l = [ (Producer, A_read V_initialized);
           (Producer, A_write V_display_fdbk);
           (Producer, A_SDL_PushEvent e);
           (Producer, A_mutex_lock) ] ++ l0
     /\ proj Producer not_waiting l0
        = match r with None => [] | Some _ => [A_mutex_unlock] end)
  /\ proj Producer is_push l = [A_SDL_PushEvent e]
  /\ match r with
     | None => display_fdbk s' = FDBK_NONE
     | Some c =>
         (display_fdbk s' = FDBK_OK /\ c = 0)
         \/ (display_fdbk s' = FDBK_FAIL /\ c = -1)
     end
  /\ (forall cur o rest,
        thread s = T_running cur -> queue s = [] ->
        sched2 = o :: rest -> o_wait o <> 0 ->
        r <> None)
  /\ (r, s', l) =
     (let '(r0, s0, l0) := await_feedback sched2 Producer (pushed e s) in
      (r0, s0,
       [ (Producer, A_read V_initialized);
         (Producer, A_write V_display_fdbk);
         (Producer, A_SDL_PushEvent e) ] ++ l0))
  /\ (sched2 = [] ->
      r = None /\ s' = pushed e s
      /\ display_fdbk s' = FDBK_NONE /\ queue s' = queue s ++ [e])
  /\ (r <> None -> proj Renderer is_fdbk_write l <> []).
Proof.
  intros Hframe Hinit e.
  unfold submit, video_display_frame.
  apply Z.eqb_neq in Hframe. rewrite Hframe.
  unfold bind, rd, wr, emit, gets, modify, ret, SDL_PushEvent.
  cbn -[await_feedback]. rewrite Hinit. cbn -[await_feedback].
  fold e. change (set_queue _ _) with (pushed e s).
  pose proof (await_feedback_spec sched2 (pushed e s)) as H.
  assert (Hret : forall cur o rest,
             thread s = T_running cur -> queue s = [] ->
             sched2 = o :: rest -> o_wait o <> 0 ->
             fst (fst (await_feedback sched2 Producer (pushed e s))) <> None).
  { intros cur o rest Hpc Hq -> Hw.
    apply (await_feedback_returns o rest (pushed e s) e); [reflexivity|].
    unfold frame_event_next, pushed; cbn. rewrite Hq. cbn.
    repeat split; eauto. }
  assert (Hblock : sched2 = [] ->
             fst (await_feedback sched2 Producer (pushed e s))
             = (None, pushed e s)).
  { intros ->. reflexivity. }
  pose proof (await_feedback_answered sched2 (pushed e s) eq_refl) as Hans.
  destruct (await_feedback sched2 Producer (pushed e s)) as [[r s'] l1].
  destruct H as ((l0 & -> & Hl0) & Hpush & _ & _ & _ & _ & Hr).
  cbn [fst snd] in Hret, Hblock, Hans.
  split; [ exists l0; split; [reflexivity | exact Hl0] | ].
  split; [ cbn in Hpush |- *; rewrite Hpush; reflexivity | ].
  split; [ destruct r as [c|]; [ | exact Hr ];
           destruct Hr as [Hn ->];
           destruct (display_fdbk s'); [contradiction | left | right]; auto | ].
  split; [ exact Hret | ].
  split; [ reflexivity | ].
  split.
  - intros Hs. specialize (Hblock Hs). injection Hblock as -> ->.
    repeat split.
  - intros Hsome. exact (Hans Hsome).
Qed.

(** ** Shutdown *)

(** One quantum of a running display thread with a non-empty queue: the
    thread ends, or it has taken the head of the queue, which was not a quit
    event, and still knows its two event tags. *)
Lemma running_step (o : sdl_outcomes) (s : state) (cur e : SDL_Event)
    (rest : list SDL_Event) :
  thread s = T_running cur ->
  queue s = e :: rest ->
  event_quit s <> event_frame s ->
  let s1 := snd (fst (renderer_step o Renderer s)) in
  (thread s1 = T_none /\ initialized s1 = false)
  \/ (thread s1 = T_running e
      /\ etype e <> event_quit s
      /\ queue s1 = rest ++ o_pump o
      /\ event_frame s1 = event_frame s
      /\ event_quit s1 = event_quit s).
Proof.
  intros Hpc Hq Hne.
  unfold_model. rewrite Hpc. cbn -[Z.ltb Z.eqb SDL_QUIT]. rewrite Hq.
  destruct (o_wait o =? 0) eqn:Hw; crunch;
    try (left; split; reflexivity).
  all: right; repeat split; try reflexivity.
  all: repeat match goal with
           | H : (_ =? _) = true |- _ => apply Z.eqb_eq in H
           | H : (_ =? _) = false |- _ => apply Z.eqb_neq in H
           end; congruence.
Qed.

(** A running display thread that has a quit event somewhere in its queue
    ends by the time it has been given one quantum per event up to and
    including that one. *)
Lemma run_until_quit (before : list SDL_Event) :
  forall (os : list sdl_outcomes) (s : state) (cur e : SDL_Event)
         (after : list SDL_Event),
    thread s = T_running cur ->
    queue s = before ++ e :: after ->
    etype e = event_quit s ->
    event_quit s <> event_frame s ->
    (length before < length os)%nat ->
    let s' := snd (fst (renderer_run os Renderer s)) in
    thread s' = T_none /\ initialized s' = false.
Proof.
  induction before as [|b before IH];
    intros os s cur e after Hpc Hq Hty Hne Hlen;
    (destruct os as [|o os]; [cbn in Hlen; lia|]);
    cbn [renderer_run]; unfold bind;
    cbn [app] in Hq;
    pose proof (running_step o s cur _ _ Hpc Hq Hne) as Hstep;
    destruct (renderer_step o Renderer s) as [[u s1] l1];
    cbn [fst snd] in Hstep;
    destruct Hstep as [[Hgone Hinit] | (Hrun & Hnq & Hq1 & Hef & Heq)].
  - rewrite (renderer_run_none os Renderer s1 Hgone). cbn. auto.
  - contradiction.
  - rewrite (renderer_run_none os Renderer s1 Hgone). cbn. auto.
  - specialize (IH os s1 b e (after ++ o_pump o) Hrun).
    rewrite Hq1, Hef, Heq, <- app_assoc in IH.
    specialize (IH eq_refl Hty Hne).
    cbn in Hlen. assert (Hl : (length before < length os)%nat) by lia.
    specialize (IH Hl). cbn in IH.
    destruct (renderer_run os Renderer s1) as [[u' s2] l2]. exact IH.
Qed.

Example first_frame_displayed :
  fst (fst (submit 7 640 480 460800 0 [sdl_ok] [sdl_ok] fresh)) = Some 0
  /\ initialized after_first_frame = true
  /\ (current_width after_first_frame, current_height after_first_frame)
     = (640, 480)
  /\ queue after_first_frame = []
  /\ thread after_first_frame
     = T_running (mk_event 32768 7 (mk_size 640 480)).
Proof. repeat split; reflexivity. Qed.

(** The scenario of a whole session: a 640x480 frame, a 1280x720 frame, a
    null frame after which the display thread ends once it runs, and a new
    frame that starts a new display thread. *)
Example session_scenario :
  let '(r2, s2, l2) :=
    submit 8 1280 720 1382400 0 [] [sdl_ok] after_first_frame in
  let '(r3, s3, _) := submit 0 0 0 0 0 [] [] s2 in
  let '(_, s4, _) := renderer_run [sdl_ok] Renderer s3 in
  let '(r5, s5, l5) := submit 9 640 480 460800 0 [sdl_ok] [sdl_ok] s4 in
  r2 = Some 0
  /\ (current_width s2, current_height s2) = (1280, 720)
  /\ proj Renderer is_resize_or_upload l2
     = [ A_SDL_SetWindowSize 1 1280 720;
         A_SDL_CreateTexture 2 1280 720 3;
         A_SDL_UpdateTexture 3 8 1280 0 ]
  /\ r3 = Some 0
  /\ thread s4 = T_none /\ initialized s4 = false
  /\ r5 = Some 0
  /\ initialized s5 = true
  /\ proj Producer (fun a => match a with
                            | A_pthread_create _ => true
                            | _ => false
                            end) l5 = [A_pthread_create 0].
Proof. cbn. repeat split; reflexivity. Qed.

(** C3 as stated fails: the call with a null frame does not wait for the
    display thread.  When the thread gets no quantum before the call
    returns, the thread of the session that showed a frame is still there at
    the return; only the quit event has been queued. *)
Lemma C3_thread_survives_call :
  ~ (let '(r, s', _) := submit 0 0 0 0 0 [] [] after_first_frame in
     r = Some 0 /\ thread s' = T_none).
Proof. cbn. intros [_ H]. discriminate H. Qed.

(** C3, amended.  A call with a null frame returns 0 at once: it takes no
    lock and never waits, for the feedback or for the display thread.  With
    [initialized] set, all it does is push one quit event, which becomes the
    last of the queue; otherwise it does nothing at all.  Of the statics the
    submitting side writes (the current size, the feedback, the queue) only
    the queue changes.  The display thread ends, with [initialized] cleared,
    once it has taken the quit event: wherever it finds that event in its
    queue, a quantum for each event up to it is enough — in particular from
    the state the call leaves. *)
Theorem C3_null_frame (width height size rc : Z)
    (sched1 sched2 : list sdl_outcomes) (s : state) :
  let '(r, s', l) := submit 0 width height size rc sched1 sched2 s in
  r = Some 0
  /\ (if initialized s then
        l = [ (Producer, A_read V_initialized);
              (Producer, A_SDL_PushEvent (quit_event s)) ]
        /\ queue s' = queue s ++ [quit_event s]
      else
        l = [ (Producer, A_read V_initialized) ] /\ queue s' = queue s)
  /\ (current_width s', current_height s', display_fdbk s')
     = (current_width s, current_height s, display_fdbk s)
  /\ (forall cur os,
        initialized s = true ->
        thread s = T_running cur ->
        event_quit s <> event_frame s ->
        (length (queue s) < length os)%nat ->
        let s'' := snd (fst (renderer_run os Renderer s')) in
        thread s'' = T_none /\ initialized s'' = false)
  /\ (forall s1 cur before after os,
        thread s1 = T_running cur ->
        queue s1 = before ++ quit_event s :: after ->
        event_quit s1 = event_quit s ->
        event_quit s1 <> event_frame s1 ->
        (length before < length os)%nat ->
        let s'' := snd (fst (renderer_run os Renderer s1)) in
        thread s'' = T_none /\ initialized s'' = false).
Proof.
  assert (Hany : forall s1 cur before after os,
            thread s1 = T_running cur ->
            queue s1 = before ++ quit_event s :: after ->
            event_quit s1 = event_quit s ->
            event_quit s1 <> event_frame s1 ->
            (length before < length os)%nat ->
            let s'' := snd (fst (renderer_run os Renderer s1)) in
            thread s'' = T_none /\ initialized s'' = false).
  { intros s1 cur before after os Hpc Hq Heq Hne Hlen.
    apply (run_until_quit before os s1 cur (quit_event s) after);
      try assumption.
    cbn. symmetry. exact Heq. }
  unfold submit, video_display_frame, video_display_stop_thread.
  unfold_model. cbn -[renderer_run].
  destruct (initialized s) eqn:Hinit; cbn -[renderer_run].
  - split; [reflexivity|]. split; [split; reflexivity|].
    split; [reflexivity|]. split; [ | exact Hany ].
    intros cur os _ Hpc Hne Hlen.
    apply (run_until_quit (queue s) os _ cur (quit_event s) []);
      try assumption; reflexivity.
  - split; [reflexivity|]. split; [split; reflexivity|].
    split; [reflexivity|]. split; [ | exact Hany ].
    intros cur os Hfalse. discriminate Hfalse.
Qed.

(** ** Lazy startup *)




(** ** Which accesses are made under the feedback mutex *)

(** C9 as stated fails: already in the first submission of a session the
    submitter tests [initialized], records the size and resets the feedback
    (twice) without holding the mutex. *)
Lemma C9_unlocked_accesses :
  unguarded Producer false
    (snd (submit 7 640 480 460800 0 [sdl_ok] [sdl_ok] fresh))
  = [ A_read V_initialized; A_write V_current_width;
      A_write V_current_height; A_write V_display_fdbk;
      A_write V_display_fdbk ]
  /\ ~ lock_discipline
         (snd (submit 7 640 480 460800 0 [sdl_ok] [sdl_ok] fresh)).
Proof.
  split; [reflexivity|]. intros [H _]. vm_compute in H. discriminate H.
Qed.

Ltac use_await :=
  match goal with
  | |- context [await_feedback ?sc Producer ?st] =>
      let H := fresh "H" in
      let r := fresh "r" in
      let s' := fresh "s'" in
      let l := fresh "l" in
      pose proof (await_feedback_spec sc st) as H;
      destruct (await_feedback sc Producer st) as [[r s'] l];
      destruct H as (_ & _ & ?Hu & ?Hh & ?Hru & ?Hrh & _)
  end.

Ltac producer_list :=
  repeat (apply Forall_cons; [unfold producer_lockfree; auto 6|]);
  try apply Forall_nil.

Ltac lockfree_leaf :=
  cbn [unguarded same_tid held_after app];
  rewrite ?unguarded_app, ?held_after_app;
  cbn [unguarded same_tid held_after app];
  repeat match goal with
         | H : unguarded Producer false _ = [] |- _ => rewrite H
         | H : held_after _ _ _ = _ |- _ => rewrite H
         end;
  cbn [unguarded same_tid held_after app].

(** C9, amended.  In every call of [video_display_frame], whatever the
    display thread does meanwhile: the only accesses the submitter makes
    without the mutex are its test of [initialized], its recording of the
    size and its resets of the feedback — every read of the feedback is made
    under the mutex; and the only access the display thread makes without
    the mutex, during the call or in any quantum of its own, is a write of
    [initialized]. *)
Theorem C9_lock_coverage (frame width height size rc : Z)
    (sched1 sched2 : list sdl_outcomes) (s : state) :
  let l := snd (submit frame width height size rc sched1 sched2 s) in
  Forall producer_lockfree (unguarded Producer false l)
  /\ Forall renderer_lockfree (unguarded Renderer false l)
  /\ forall o s0,
       Forall renderer_lockfree
         (unguarded Renderer false (snd (renderer_step o Renderer s0))).
Proof.
  cut (let l := snd (submit frame width height size rc sched1 sched2 s) in
       Forall producer_lockfree (unguarded Producer false l)
       /\ Forall renderer_lockfree (unguarded Renderer false l)).
  { intros [A B]. repeat split; try assumption.
    intros o s0. apply renderer_step_log. }
  unfold submit, video_display_frame, video_display_create_thread,
    video_display_stop_thread.
  unfold bind, rd, wr, emit, gets, modify, ret, SDL_PushEvent.
  cbn -[await_feedback].
  destruct (frame =? 0).
  - destruct (initialized s); cbn;
      (split; [producer_list | constructor]).
  - destruct (initialized s); cbn -[await_feedback].
    + use_await. cbn [snd]. lockfree_leaf.
      split; [producer_list | assumption].
    + destruct (rc =? 0); cbn -[await_feedback];
        (destruct (rc <? 0); cbn -[await_feedback];
         [ split; [producer_list | constructor] | ]).
      all: use_await.
      all: match goal with
           | r : option Z |- _ => destruct r as [c|]
           end; cbn -[await_feedback].
      all: try (destruct (c <? 0); cbn -[await_feedback]).
      all: try use_await.
      all: cbn [snd]; lockfree_leaf.
      all: split;
        [ producer_list
        | rewrite ?app_nil_r; try (apply Forall_app; split); assumption ].
Qed.

(** ** The unused byte count *)

(** C10.  Two calls that differ only in [size] return the same result, leave
    the same state and produce the same log, whatever the frame pointer, the
    session state and the display thread's schedule: neither the submitter
    nor the display thread (whose events carry no byte count) reads it. *)
Theorem C10_size_unused (frame width height size1 size2 rc : Z)
    (sched1 sched2 : list sdl_outcomes) (s : state) :
  submit frame width height size1 rc sched1 sched2 s
  = submit frame width height size2 rc sched1 sched2 s.
Proof. reflexivity. Qed.

(** ** The theorems at work on a concrete session *)

(** C1 on the second frame of a session: the call returns 0 after one
    quantum of the display thread, having pushed one frame event. *)
Lemma C1_submit_running_witness :
  8 <> 0
  /\ initialized after_first_frame = true
  /\ fst (fst (submit 8 1280 720 1382400 0 [] [sdl_ok] after_first_frame))
     = Some 0
  /\ proj Producer is_push
       (snd (submit 8 1280 720 1382400 0 [] [sdl_ok] after_first_frame))
     = [A_SDL_PushEvent resize_request].
Proof.
  assert (H8 : 8 <> 0) by lia.
  pose proof (C1_submit_running 8 1280 720 1382400 0 [] [sdl_ok]
                after_first_frame H8 eq_refl) as H.
  destruct (submit 8 1280 720 1382400 0 [] [sdl_ok] after_first_frame)
    as [[r s'] l] eqn:E.
  destruct H as (_ & Hpush & _ & _).
  split; [exact H8|]. split; [reflexivity|].
  split; [ | exact Hpush ].
  apply (f_equal (fun x => fst (fst x))) in E. cbn in E.
  symmetry. exact E.
Defined.

(** C2 on a 1280x720 frame arriving at a 640x480 display: one resize, then
    the upload, and the new size is current. *)
Lemma C2_resize_once_witness :
  frame_event_next sdl_ok with_resize_request resize_request
  /\ proj Renderer is_resize_or_upload
       (snd (renderer_step sdl_ok Renderer with_resize_request))
     = [ A_SDL_SetWindowSize 1 1280 720;
         A_SDL_CreateTexture 2 1280 720 3;
         A_SDL_UpdateTexture 3 8 1280 0 ]
  /\ current_width
       (snd (fst (renderer_step sdl_ok Renderer with_resize_request))) = 1280.
Proof.
  assert (H : frame_event_next sdl_ok with_resize_request resize_request).
  { unfold frame_event_next. cbn. repeat split; eauto. lia. }
  pose proof (C2_resize_once sdl_ok with_resize_request resize_request H) as H2.
  cbn in H2. destruct H2 as [Hlog Hsize].
  split; [exact H|]. split; [exact Hlog|].
  exact (f_equal fst Hsize).
Defined.


(** C5 on the thread of a fresh session, with SDL working and with SDL
    unable to build the texture. *)
Lemma C5_starting_phase_witness :
  thread (started 640 480 fresh) = T_starting
  /\ display_fdbk
       (snd (fst (renderer_step sdl_ok Renderer (started 640 480 fresh))))
     = FDBK_OK
  /\ display_fdbk
       (snd (fst (renderer_step sdl_no_texture Renderer
                    (started 640 480 fresh))))
     = FDBK_FAIL.
Proof.
  pose proof (C5_starting_phase sdl_ok (started 640 480 fresh) eq_refl) as Hok.
  pose proof (C5_starting_phase sdl_no_texture (started 640 480 fresh) eq_refl)
    as Hko.
  cbn in Hok, Hko.
  destruct Hok as (Hok & _). destruct Hko as (Hko & _).
  split; [reflexivity|]. split; [exact Hok | exact Hko].
Defined.

(** C6 on the queued second frame: feedback [FDBK_OK], written once and
    signalled once. *)
Lemma C6_frame_feedback_witness :
  frame_event_next sdl_ok with_resize_request resize_request
  /\ proj Renderer is_feedback
       (snd (renderer_step sdl_ok Renderer with_resize_request))
     = [A_write V_display_fdbk; A_cond_signal]
  /\ display_fdbk
       (snd (fst (renderer_step sdl_ok Renderer with_resize_request)))
     = FDBK_OK.
Proof.
  assert (H : frame_event_next sdl_ok with_resize_request resize_request).
  { unfold frame_event_next. cbn. repeat split; eauto. lia. }
  pose proof (C6_frame_feedback sdl_ok with_resize_request resize_request H)
    as H6.
  cbn in H6. destruct H6 as (Hlog & _ & Hok & _).
  split; [exact H|]. split; [exact Hlog | exact Hok].
Defined.

(** C7 on the queued quit event: the iteration ends with the exit sequence
    and the thread is gone. *)
Lemma C7_exit_sequence_witness :
  iteration_next sdl_ok with_quit_request
  /\ thread (snd (fst (renderer_step sdl_ok Renderer with_quit_request)))
     = T_none
  /\ initialized (snd (fst (renderer_step sdl_ok Renderer with_quit_request)))
     = false.
Proof.
  assert (H : iteration_next sdl_ok with_quit_request).
  { unfold iteration_next. cbn. split; [eauto | right; discriminate]. }
  pose proof (C7_exit_sequence sdl_ok with_quit_request H) as H7.
  destruct (renderer_step sdl_ok Renderer with_quit_request) as [[u s'] l].
  cbn [fst snd].
  destruct H7 as (Hexit & _ & Hquit).
  assert (Hgone : thread s' = T_none).
  { apply (Hquit (mk_event 32769 0 (mk_size 0 0)) []);
      [ cbn; lia | reflexivity | cbn; lia | left; reflexivity ]. }
  destruct (Hexit Hgone) as (_ & _ & Hinit & _).
  split; [exact H|]. split; [exact Hgone | exact Hinit].
Defined.

(** C8 on the queued quit event: even the last iteration redraws once. *)
Lemma C8_redraw_once_witness :
  iteration_next sdl_ok with_quit_request
  /\ proj Renderer is_render
       (snd (renderer_step sdl_ok Renderer with_quit_request))
     = [A_SDL_RenderClear 2; A_SDL_RenderCopy 2 3; A_SDL_RenderPresent 2].
Proof.
  assert (H : iteration_next sdl_ok with_quit_request).
  { unfold iteration_next. cbn. split; [eauto | right; discriminate]. }
  pose proof (C8_redraw_once sdl_ok with_quit_request H) as H8.
  destruct (renderer_step sdl_ok Renderer with_quit_request) as [[u s'] l] eqn:E.
  destruct H8 as (Hlog & _).
  split; [exact H|]. cbn [snd]. rewrite Hlog.
  apply (f_equal (fun x => redraw_actions (snd (fst x)))) in E.
  cbn [fst snd] in E. rewrite <- E. reflexivity.
Defined.

(** ** Initialisation of SDL *)

(** A Uint32 successor is never the number itself. *)
Lemma Uint32_succ_neq (x : Z) : Uint32_wrap (x + 1) <> x.
Proof.
  unfold Uint32_wrap. intros H.
  pose proof (Z.mod_pos_bound (x + 1) 4294967296 ltac:(lia)) as Hb.
  pose proof (Z.div_mod (x + 1) 4294967296 ltac:(lia)) as Hd.
  rewrite H in Hb, Hd. lia.
Qed.

(** X1, [video_display_init].  The result is 0 or -1, and 0 exactly when
    [SDL_Init], [SDL_CreateWindow], [SDL_CreateRenderer] and
    [SDL_RegisterEvents] all succeed; then the window and the renderer are
    the handles SDL returned, the quit tag is the successor of the frame tag
    and differs from it.  When [SDL_Init] fails nothing else is called and
    no static changes.  The window, when it is created, has the requested
    size, and the function never touches the texture, the current size,
    [initialized], the feedback, the queue or the thread. *)
Theorem X1_init_result (o : sdl_outcomes) (width height : Z) (t : tid)
    (s : state) :
  let '(r, s', l) := video_display_init o width height t s in
  (r = 0 \/ r = -1)
  /\ (r = 0 <->
      0 <= o_init o /\ o_win o <> 0 /\ o_ren o <> 0
      /\ o_reg o <> Uint32_max)
  /\ (r = 0 ->
      win s' = o_win o /\ renderer s' = o_ren o
      /\ event_frame s' = o_reg o
      /\ event_quit s' = Uint32_wrap (o_reg o + 1)
      /\ event_quit s' <> event_frame s')
  /\ (o_init o < 0 -> s' = s /\ l = [(t, A_SDL_Init (o_init o))])
  /\ (0 <= o_init o -> In (t, A_SDL_CreateWindow width height (o_win o)) l)
  /\ frameTex s' = frameTex s
  /\ (current_width s', current_height s') = (current_width s, current_height s)
  /\ initialized s' = initialized s
  /\ display_fdbk s' = display_fdbk s
  /\ queue s' = queue s
  /\ thread s' = thread s.
Proof.
  unfold video_display_init, bind, ret, emit, gets, modify.
  destruct (o_init o <? 0) eqn:E1; cbn -[Z.ltb Z.eqb Uint32_max Uint32_wrap].
  - apply Z.ltb_lt in E1.
    repeat split; auto; try lia; try discriminate; try (destruct s; reflexivity).
  - apply Z.ltb_ge in E1.
    destruct (o_win o =? 0) eqn:E2; cbn -[Z.ltb Z.eqb Uint32_max Uint32_wrap];
      [ apply Z.eqb_eq in E2;
        repeat split; auto; try lia; try discriminate | ].
    apply Z.eqb_neq in E2.
    destruct (o_ren o =? 0) eqn:E3; cbn -[Z.ltb Z.eqb Uint32_max Uint32_wrap];
      [ apply Z.eqb_eq in E3;
        repeat split; auto; try lia; try discriminate | ].
    apply Z.eqb_neq in E3.
    destruct (o_reg o =? Uint32_max) eqn:E4;
      cbn -[Z.ltb Z.eqb Uint32_max Uint32_wrap];
      [ apply Z.eqb_eq in E4;
        repeat split; auto; try lia; try discriminate | ].
    apply Z.eqb_neq in E4.
    repeat split; auto; try lia. apply Uint32_succ_neq.
Qed.

(** ** Events that are not frames, and errors of [SDL_WaitEvent] *)

Ltac dispatch_setup Hd o s :=
  unfold dispatched in Hd;
  destruct (thread s) as [| |cur] eqn:Hpc; try discriminate Hd;
  unfold_model; rewrite Hpc; cbn -[Z.ltb Z.eqb SDL_QUIT];
  destruct (o_wait o =? 0) eqn:Hw;
  [ injection Hd as Hd; subst cur
  | destruct (queue s ++ o_pump o) as [|? ?] eqn:Hq;
    [ discriminate Hd | cbn in Hd; injection Hd as Hd; subst ] ].

Ltac eqb_props :=
  repeat match goal with
         | H : (_ =? _) = true |- _ => apply Z.eqb_eq in H
         | H : (_ =? _) = false |- _ => apply Z.eqb_neq in H
         | H : negb _ = true |- _ => apply negb_true_iff in H
         | H : negb _ = false |- _ => apply negb_false_iff in H
         end.

(** X2, events that are not frame events.  An iteration that dispatches on
    an event whose tag is not the frame tag never uses the feedback channel
    (no lock, no write of the feedback, no signal) and leaves the feedback,
    the texture and the current size as they were.  If moreover the event
    was delivered and is neither a quit request nor a window close, the
    iteration changes nothing but the queue and [current_evt]. *)
Theorem X2_nonframe_silent (o : sdl_outcomes) (s : state) (e : SDL_Event) :
  dispatched o s = Some e ->
  etype e <> event_frame s ->
  let '(_, s', l) := renderer_step o Renderer s in
  display_fdbk s' = display_fdbk s
  /\ proj Renderer is_channel l = []
  /\ frameTex s' = frameTex s
  /\ (current_width s', current_height s') = (current_width s, current_height s)
  /\ (o_wait o <> 0 -> etype e <> event_quit s -> etype e <> SDL_QUIT ->
      s' = set_thread (T_running e) (set_queue (tl (queue s ++ o_pump o)) s)).
Proof.
  intros Hd Hnf. apply Z.eqb_neq in Hnf.
  dispatch_setup Hd o s; crunch; eqb_props;
    repeat split; try reflexivity; try congruence;
    intros; try congruence; destruct s; reflexivity.
Qed.

(** X3, window close.  [video_set_stopped] is called in an iteration exactly
    when the event dispatched on carries SDL's window-close tag and is
    neither a frame event nor a quit request, and then exactly once. *)
Theorem X3_set_stopped (o : sdl_outcomes) (s : state) (e : SDL_Event) :
  dispatched o s = Some e ->
  let '(_, s', l) := renderer_step o Renderer s in
  proj Renderer is_set_stopped l =
  if (etype e =? event_frame s) || (etype e =? event_quit s) then []
  else if etype e =? SDL_QUIT then [A_video_set_stopped] else [].
Proof.
  intros Hd.
  dispatch_setup Hd o s; crunch; reflexivity.
Qed.

(** X4, error of [SDL_WaitEvent].  When [SDL_WaitEvent] fails, the display
    thread ends in that very iteration: no event is taken from the queue,
    nothing is uploaded, and the feedback is left as it was or becomes
    [FDBK_FAIL] — never [FDBK_OK]. *)
Theorem X4_wait_error (o : sdl_outcomes) (s : state) (cur : SDL_Event) :
  thread s = T_running cur ->
  o_wait o = 0 ->
  let '(_, s', l) := renderer_step o Renderer s in
  thread s' = T_none
  /\ initialized s' = false
  /\ queue s' = queue s ++ o_pump o
  /\ proj Renderer is_upload l = []
  /\ (display_fdbk s' = display_fdbk s \/ display_fdbk s' = FDBK_FAIL).
Proof.
  intros Hpc Hw. apply Z.eqb_eq in Hw.
  unfold_model. rewrite Hpc. cbn -[Z.ltb Z.eqb SDL_QUIT]. rewrite Hw.
  crunch; repeat split; auto.
Qed.

(** X5, the upload fits the texture.  When a delivered frame event leads to
    an upload, there is exactly one, into the texture the thread is left
    with, with the frame's own width as pitch, and the current size is then
    the size of the frame. *)
Theorem X5_upload_matches (o : sdl_outcomes) (s : state) (e : SDL_Event) :
  frame_event_next o s e ->
  let '(_, s', l) := renderer_step o Renderer s in
  proj Renderer is_upload l = []
  \/ (proj Renderer is_upload l =
        [A_SDL_UpdateTexture (frameTex s') (data1 e) (vw (data2 e)) (o_upd o)]
      /\ (current_width s', current_height s')
         = (vw (data2 e), vh (data2 e))).
Proof.
  intros Hnext. frame_setup Hnext; eqb_props;
    first [ left; reflexivity
          | right; split; first [ reflexivity | congruence ] ].
Qed.

(** ** Waiting for a display thread that is not there *)

(** Without a display thread nobody writes the feedback: a waiter that finds
    [FDBK_NONE] sleeps through any schedule. *)
Lemma wait_loop_dead (sched : list sdl_outcomes) (s : state) :
  thread s = T_none ->
  display_fdbk s = FDBK_NONE ->
  fst (wait_loop sched Producer s) = (None, s).
Proof.
  intros Hpc Hfb. induction sched as [|o rest IH].
  - cbn [wait_loop]. unfold bind, rd, emit, gets, ret. cbn.
    rewrite Hfb. reflexivity.
  - cbn [wait_loop].
    unfold bind, rd, emit, gets, ret, pthread_cond_wait, run_as,
      renderer_step.
    cbn -[wait_loop]. rewrite Hfb, Hpc. cbn -[wait_loop].
    destruct (wait_loop rest Producer s) as [[r s'] l].
    cbn [fst] in IH. injection IH as -> ->. reflexivity.
Qed.

Lemma await_feedback_dead (sched : list sdl_outcomes) (s : state) :
  thread s = T_none ->
  display_fdbk s = FDBK_NONE ->
  fst (await_feedback sched Producer s) = (None, s).
Proof.
  intros Hpc Hfb.
  pose proof (wait_loop_dead sched s Hpc Hfb) as H.
  unfold await_feedback, bind, pthread_mutex_lock, emit.
  destruct (wait_loop sched Producer s) as [[r s'] l].
  cbn [fst] in H. injection H as -> ->. reflexivity.
Qed.

(** X6, failure of [pthread_create].  On a negative return code the call
    returns -1 at once: it has recorded the size and reset the feedback, but
    takes no lock, pushes nothing and leaves [initialized] clear.  On a
    positive return code — the way [pthread_create] reports an error — the
    test [< 0] does not see the failure: with no display thread to answer,
    the call waits for the feedback through every schedule and never
    returns. *)
Theorem X6_create_failure (frame width height size rc : Z)
    (sched1 sched2 : list sdl_outcomes) (s : state) :
  frame <> 0 ->
  initialized s = false ->
  let recorded :=
    set_display_fdbk FDBK_NONE
      (set_current_height height (set_current_width width s)) in
  (rc < 0 ->
   submit frame width height size rc sched1 sched2 s =
   (Some (-1), recorded,
    [ (Producer, A_read V_initialized);
      (Producer, A_write V_current_width);
      (Producer, A_write V_current_height);
      (Producer, A_write V_display_fdbk);
      (Producer, A_pthread_create rc) ]))
  /\ (0 < rc -> thread s = T_none ->
      fst (submit frame width height size rc sched1 sched2 s)
      = (None, recorded)).
Proof.
  intros Hframe Hinit recorded.
  unfold submit, video_display_frame, video_display_create_thread.
  apply Z.eqb_neq in Hframe. rewrite Hframe.
  unfold bind, rd, wr, emit, gets, modify, ret.
  cbn -[await_feedback Z.ltb Z.eqb]. rewrite Hinit.
  cbn -[await_feedback Z.ltb Z.eqb].
  fold recorded.
  split.
  - intros Hrc.
    assert (E0 : (rc =? 0) = false) by (apply Z.eqb_neq; lia).
    assert (E1 : (rc <? 0) = true) by (apply Z.ltb_lt; lia).
    rewrite E0, E1. cbn. reflexivity.
  - intros Hrc Hpc.
    assert (E0 : (rc =? 0) = false) by (apply Z.eqb_neq; lia).
    assert (E1 : (rc <? 0) = false) by (apply Z.ltb_ge; lia).
    rewrite E0, E1. cbn -[await_feedback].
    pose proof (await_feedback_dead sched1 recorded Hpc eq_refl) as H.
    destruct (await_feedback sched1 Producer recorded) as [[r s'] l].
    cbn [fst] in H. injection H as -> ->. reflexivity.
Qed.

(** A delivered quit request or window close ends the display thread without
    a word on the feedback channel. *)
Lemma quit_step (o : sdl_outcomes) (s : state) (cur q : SDL_Event)
    (rest : list SDL_Event) :
  thread s = T_running cur ->
  queue s ++ o_pump o = q :: rest ->
  o_wait o <> 0 ->
  etype q <> event_frame s ->
  etype q = event_quit s \/ etype q = SDL_QUIT ->
  let s1 := snd (fst (renderer_step o Renderer s)) in
  thread s1 = T_none /\ initialized s1 = false
  /\ display_fdbk s1 = display_fdbk s /\ queue s1 = rest.
Proof.
  intros Hpc Hq Hw Hnf Hty.
  apply Z.eqb_neq in Hw. apply Z.eqb_neq in Hnf.
  unfold_model. rewrite Hpc. cbn -[Z.ltb Z.eqb SDL_QUIT].
  rewrite Hw, Hq. crunch; auto.
  exfalso. eqb_props. destruct Hty; congruence.
Qed.

(** X7, a close ahead of a frame.  If a quit request or a window close is
    at the head of the queue when a frame is submitted to a running
    display, the display thread ends on that event without answering: the
    frame event stays in the queue, the feedback stays [FDBK_NONE], and the
    call does not return in any schedule whose first [SDL_WaitEvent]
    works. *)
Theorem X7_close_before_frame (frame width height size rc : Z)
    (sched1 sched2 : list sdl_outcomes) (s : state)
    (cur q : SDL_Event) (rest : list SDL_Event) :
  frame <> 0 ->
  initialized s = true ->
  thread s = T_running cur ->
  queue s = q :: rest ->
  etype q <> event_frame s ->
  etype q = event_quit s \/ etype q = SDL_QUIT ->
  (forall o more, sched2 = o :: more -> o_wait o <> 0) ->
  let e := mk_event (event_frame s) frame (mk_size width height) in
  let '(r, s', _) := submit frame width height size rc sched1 sched2 s in
  r = None
  /\ display_fdbk s' = FDBK_NONE
  /\ In e (queue s')
  /\ (sched2 <> [] -> thread s' = T_none /\ initialized s' = false).
Proof.
  intros Hframe Hinit Hpc Hq Hnf Hty Hsched e.
  unfold submit, video_display_frame.
  apply Z.eqb_neq in Hframe. rewrite Hframe.
  unfold bind, rd, wr, emit, gets, modify, ret, SDL_PushEvent.
  cbn -[await_feedback]. rewrite Hinit. cbn -[await_feedback].
  fold e. change (set_queue _ _) with (pushed e s).
  destruct sched2 as [|o more].
  - cbn. split; [reflexivity|]. split; [reflexivity|]. split.
    + apply in_or_app. right. left. reflexivity.
    + intros Hne. exfalso. apply Hne. reflexivity.
  - specialize (Hsched o more eq_refl).
    unfold await_feedback, bind, pthread_mutex_lock, emit.
    cbn [wait_loop].
    unfold bind, rd, emit, gets, ret, pthread_cond_wait, run_as.
    cbn -[renderer_step wait_loop].
    assert (Hq' : queue (pushed e s) ++ o_pump o
                  = q :: (rest ++ [e]) ++ o_pump o).
    { unfold pushed. cbn. rewrite Hq. reflexivity. }
    pose proof (quit_step o (pushed e s) cur q _ Hpc Hq' Hsched Hnf Hty)
      as Hstep.
    destruct (renderer_step o Renderer (pushed e s)) as [[u s1] l1].
    cbn [fst snd] in Hstep. destruct Hstep as (Hgone & Hi & Hfb & Hq1).
    cbn in Hfb.
    pose proof (wait_loop_dead more s1 Hgone Hfb) as Hdead.
    destruct (wait_loop more Producer s1) as [[r s'] l2].
    cbn [fst] in Hdead. injection Hdead as -> ->. cbn.
    split; [reflexivity|]. split; [exact Hfb|]. split; [ | auto ].
    rewrite Hq1. apply in_or_app. left. apply in_or_app. right.
    left. reflexivity.
Qed.

(** ** An invariant of the event loop *)










(** ** Textures over the life of a display thread *)

Lemma textures_created_app (l1 l2 : log) :
  textures_created (l1 ++ l2) = textures_created l1 ++ textures_created l2.
Proof.
  induction l1 as [|[t a] l1 IH]; [reflexivity|].
  destruct t, a; cbn; rewrite ?IH; reflexivity.
Qed.

Lemma textures_destroyed_app (l1 l2 : log) :
  textures_destroyed (l1 ++ l2)
  = textures_destroyed l1 ++ textures_destroyed l2.
Proof.
  induction l1 as [|[t a] l1 IH]; [reflexivity|].
  destruct t, a; cbn; rewrite ?IH; reflexivity.
Qed.

Lemma texture_step (o : sdl_outcomes) (s : state) :
  thread s <> T_none ->
  let '(_, s', l) := renderer_step o Renderer s in
  match thread s' with
  | T_none => textures_destroyed l = frameTex s :: textures_created l
  | _ => textures_destroyed l ++ [frameTex s']
         = frameTex s :: textures_created l
  end.
Proof.
  intros Hpc.
  destruct (thread s) as [| |cur] eqn:E; [contradiction| |].
  - unfold_model. rewrite E. crunch; reflexivity.
  - unfold_model. rewrite E. cbn -[Z.ltb Z.eqb SDL_QUIT].
    destruct (o_wait o =? 0) eqn:Hw;
      [ | destruct (queue s ++ o_pump o) as [|e rest] eqn:Hq ];
      crunch; try rewrite E; reflexivity.
Qed.

(** X9, no texture is lost.  Over any run of a display thread, the textures
    handed to [SDL_DestroyTexture] are, in order, the handle [frameTex] held
    when the run began followed by every texture the run created: each
    created texture is destroyed exactly once, the last of them by the exit
    sequence (while the thread lives, that last one is the current
    [frameTex]). *)
Theorem X9_texture_balance (os : list sdl_outcomes) (s : state) :
  thread s <> T_none ->
  let '(_, s', l) := renderer_run os Renderer s in
  match thread s' with
  | T_none => textures_destroyed l = frameTex s :: textures_created l
  | _ => textures_destroyed l ++ [frameTex s']
         = frameTex s :: textures_created l
  end.
Proof.
  revert s. induction os as [|o os IH]; intros s Hpc.
  - cbn. destruct (thread s); [contradiction| |]; reflexivity.
  - cbn [renderer_run]. unfold bind.
    pose proof (texture_step o s Hpc) as Hstep.
    destruct (renderer_step o Renderer s) as [[u s1] l1].
    destruct (thread s1) as [| |c1] eqn:E1.
    + rewrite (renderer_run_none os Renderer s1 E1).
      rewrite app_nil_r, E1. exact Hstep.
    + assert (Hpc1 : thread s1 <> T_none) by (rewrite E1; discriminate).
      specialize (IH s1 Hpc1).
      destruct (renderer_run os Renderer s1) as [[u' s2] l2].
      rewrite textures_destroyed_app, textures_created_app.
      destruct (thread s2);
        [ rewrite IH | rewrite <- app_assoc, IH | rewrite <- app_assoc, IH ];
        change (textures_destroyed l1 ++ frameTex s1 :: textures_created l2)
          with (textures_destroyed l1 ++ [frameTex s1] ++ textures_created l2);
        rewrite app_assoc, Hstep; reflexivity.
    + assert (Hpc1 : thread s1 <> T_none) by (rewrite E1; discriminate).
      specialize (IH s1 Hpc1).
      destruct (renderer_run os Renderer s1) as [[u' s2] l2].
      rewrite textures_destroyed_app, textures_created_app.
      destruct (thread s2);
        [ rewrite IH | rewrite <- app_assoc, IH | rewrite <- app_assoc, IH ];
        change (textures_destroyed l1 ++ frameTex s1 :: textures_created l2)
          with (textures_destroyed l1 ++ [frameTex s1] ++ textures_created l2);
        rewrite app_assoc, Hstep; reflexivity.
Qed.

(** ** What the result says *)

Ltac use_await_code :=
  match goal with
  | |- context [await_feedback ?sc Producer ?st] =>
      let H := fresh "H" in
      pose proof (await_feedback_spec sc st) as H;
      destruct (await_feedback sc Producer st) as [[[?c|] ?s'] ?l];
      destruct H as (_ & _ & _ & _ & _ & _ & ?Hcode);
      cbn -[await_feedback]
  end.

(** X10, the result of a call.  A call that returns gives 0 or -1.  It
    gives 0 only for a null frame or with the feedback at [FDBK_OK]; it
    gives -1 only for a frame whose feedback is [FDBK_FAIL], or when
    [pthread_create] returned a negative code on startup.  A call that has
    not returned is waiting on a feedback that is still [FDBK_NONE]. *)
Theorem X10_return_codes (frame width height size rc : Z)
    (sched1 sched2 : list sdl_outcomes) (s : state) :
  let '(r, s', _) := submit frame width height size rc sched1 sched2 s in
  match r with
  | Some c =>
      (c = 0 /\ (frame = 0 \/ display_fdbk s' = FDBK_OK))
      \/ (c = -1 /\ frame <> 0
          /\ (display_fdbk s' = FDBK_FAIL
              \/ (rc < 0 /\ initialized s = false)))
  | None => frame <> 0 /\ display_fdbk s' = FDBK_NONE
  end.
Proof.
  unfold submit, video_display_frame, video_display_create_thread,
    video_display_stop_thread.
  unfold bind, rd, wr, emit, gets, modify, ret, SDL_PushEvent.
  cbn -[await_feedback].
  destruct (frame =? 0) eqn:Hframe.
  - apply Z.eqb_eq in Hframe.
    destruct (initialized s); cbn; left; auto.
  - apply Z.eqb_neq in Hframe.
    destruct (initialized s) eqn:Hi; cbn -[await_feedback].
    + use_await_code; [ | auto ].
      destruct Hcode as [Hn ->].
      destruct (display_fdbk s'); [contradiction | left | right]; auto.
    + destruct (rc =? 0); cbn -[await_feedback];
        (destruct (rc <? 0) eqn:Hrc; cbn -[await_feedback];
         [ apply Z.ltb_lt in Hrc; right; auto | ]).
      all: use_await_code; [ | auto ].
      all: destruct Hcode as [Hn ->].
      all: destruct (display_fdbk s') eqn:Hfb; [contradiction | | ];
        cbn -[await_feedback]; [ | right; auto ].
      all: use_await_code; [ | auto ].
      all: destruct Hcode as [Hn' ->].
      all: destruct (display_fdbk s'0); [contradiction | left | right]; auto.
Qed.

(** ** The further theorems at work *)

(** X2 on a key press: the feedback of the last frame stays and the thread
    goes on. *)
Lemma X2_nonframe_silent_witness :
  dispatched sdl_ok with_key_event = Some key_event
  /\ etype key_event <> event_frame with_key_event
  /\ display_fdbk (snd (fst (renderer_step sdl_ok Renderer with_key_event)))
     = FDBK_OK
  /\ snd (fst (renderer_step sdl_ok Renderer with_key_event))
     = set_thread (T_running key_event) after_first_frame.
Proof.
  assert (Hd : dispatched sdl_ok with_key_event = Some key_event)
    by reflexivity.
  assert (Hne : etype key_event <> event_frame with_key_event)
    by (cbn; lia).
  pose proof (X2_nonframe_silent sdl_ok with_key_event key_event Hd Hne) as H.
  destruct (renderer_step sdl_ok Renderer with_key_event) as [[u s'] l].
  destruct H as (Hfb & _ & _ & _ & Hsame).
  split; [exact Hd|]. split; [exact Hne|]. split; [exact Hfb|].
  apply Hsame; vm_compute; discriminate.
Defined.

(** X3 on a window close: one call of [video_set_stopped]. *)
Lemma X3_set_stopped_witness :
  dispatched sdl_ok with_close_event = Some close_event
  /\ proj Renderer is_set_stopped
       (snd (renderer_step sdl_ok Renderer with_close_event))
     = [A_video_set_stopped].
Proof.
  assert (Hd : dispatched sdl_ok with_close_event = Some close_event)
    by reflexivity.
  pose proof (X3_set_stopped sdl_ok with_close_event close_event Hd) as H.
  destruct (renderer_step sdl_ok Renderer with_close_event) as [[u s'] l].
  split; [exact Hd | exact H].
Defined.

(** X4 on the session that displayed a frame: the error ends the thread. *)
Lemma X4_wait_error_witness :
  thread after_first_frame = T_running (mk_event 32768 7 (mk_size 640 480))
  /\ o_wait sdl_wait_error = 0
  /\ thread (snd (fst (renderer_step sdl_wait_error Renderer
                         after_first_frame))) = T_none.
Proof.
  pose proof (X4_wait_error sdl_wait_error after_first_frame _ eq_refl eq_refl)
    as H.
  destruct (renderer_step sdl_wait_error Renderer after_first_frame)
    as [[u s'] l].
  destruct H as (Hgone & _).
  split; [reflexivity|]. split; [reflexivity | exact Hgone].
Defined.

(** X5 on the queued 1280x720 frame: uploaded with pitch 1280. *)
Lemma X5_upload_matches_witness :
  frame_event_next sdl_ok with_resize_request resize_request
  /\ (proj Renderer is_upload
        (snd (renderer_step sdl_ok Renderer with_resize_request)) = []
      \/ current_width
           (snd (fst (renderer_step sdl_ok Renderer with_resize_request)))
         = 1280).
Proof.
  assert (H : frame_event_next sdl_ok with_resize_request resize_request).
  { unfold frame_event_next. cbn. repeat split; eauto. lia. }
  pose proof (X5_upload_matches sdl_ok with_resize_request resize_request H)
    as H5.
  destruct (renderer_step sdl_ok Renderer with_resize_request) as [[u s'] l].
  split; [exact H|].
  destruct H5 as [Hno | [_ Hsize]]; [left; exact Hno | right].
  exact (f_equal fst Hsize).
Defined.

(** X6 on a fresh session: -1 for a negative code, no return for EAGAIN. *)
Lemma X6_create_failure_witness :
  7 <> 0
  /\ initialized fresh = false
  /\ fst (fst (submit 7 640 480 460800 (-1) [sdl_ok] [sdl_ok] fresh))
     = Some (-1)
  /\ fst (fst (submit 7 640 480 460800 11 [sdl_ok] [sdl_ok] fresh)) = None.
Proof.
  assert (H7 : 7 <> 0) by lia.
  pose proof (X6_create_failure 7 640 480 460800 (-1) [sdl_ok] [sdl_ok] fresh
                H7 eq_refl) as [Hneg _].
  pose proof (X6_create_failure 7 640 480 460800 11 [sdl_ok] [sdl_ok] fresh
                H7 eq_refl) as [_ Hpos].
  split; [exact H7|]. split; [reflexivity|]. split.
  - rewrite Hneg by lia. reflexivity.
  - rewrite Hpos by (lia || reflexivity). reflexivity.
Defined.

(** X7 on a window close queued ahead of the second frame: no return. *)
Lemma X7_close_before_frame_witness :
  fst (fst (submit 8 1280 720 1382400 0 [] [sdl_ok; sdl_ok] with_close_event))
  = None.
Proof.
  assert (H8 : 8 <> 0) by lia.
  assert (Hne : etype close_event <> event_frame with_close_event)
    by (cbn; lia).
  assert (Hw : forall o more, [sdl_ok; sdl_ok] = o :: more -> o_wait o <> 0).
  { intros o more Heq. injection Heq as <- _. cbn. lia. }
  pose proof (X7_close_before_frame 8 1280 720 1382400 0 [] [sdl_ok; sdl_ok]
                with_close_event _ close_event [] H8 eq_refl eq_refl eq_refl
                Hne (or_intror eq_refl) Hw) as H.
  destruct (submit 8 1280 720 1382400 0 [] [sdl_ok; sdl_ok] with_close_event)
    as [[r s'] l].
  destruct H as (Hr & _). exact Hr.
Defined.


(** X9 on a session that displays a frame and is then asked to quit: the
    one texture created is the one destroyed on exit. *)
Lemma X9_texture_balance_witness :
  thread with_quit_request <> T_none
  /\ textures_destroyed
       (snd (renderer_run [sdl_ok] Renderer with_quit_request)) = [3].
Proof.
  assert (Hpc : thread with_quit_request <> T_none) by (cbn; discriminate).
  pose proof (X9_texture_balance [sdl_ok] with_quit_request Hpc) as H.
  split; [exact Hpc|]. cbn in H. exact H.
Defined.

(** ** A frame from submission to result *)

Lemma frame_step_outcome (o : sdl_outcomes) (s : state) (e : SDL_Event) :
  frame_event_next o s e ->
  let s1 := snd (fst (renderer_step o Renderer s)) in
  if frame_fails o e s then
    display_fdbk s1 = FDBK_FAIL /\ thread s1 = T_none
    /\ initialized s1 = false
  else
    display_fdbk s1 = FDBK_OK /\ thread s1 = T_running e
    /\ initialized s1 = initialized s
    /\ (current_width s1, current_height s1) = (vw (data2 e), vh (data2 e))
    /\ queue s ++ o_pump o = e :: queue s1.
Proof.
  intros Hnext. unfold frame_fails, size_differs.
  destruct (vw (data2 e) =? current_width s) eqn:Ew;
    destruct (vh (data2 e) =? current_height s) eqn:Eh;
    destruct (o_tex o =? 0) eqn:Et;
    destruct (o_upd o <? 0) eqn:Eu;
    frame_setup Hnext; eqb_props;
    repeat split; try reflexivity; congruence.
Qed.

Lemma frame_step_calls (o : sdl_outcomes) (s : state) (e : SDL_Event) :
  frame_event_next o s e ->
  proj Renderer is_resize_or_upload (snd (renderer_step o Renderer s))
  = frame_calls o e s.
Proof.
  intros Hnext. unfold frame_calls, size_differs.
  destruct (vw (data2 e) =? current_width s) eqn:Ew;
    destruct (vh (data2 e) =? current_height s) eqn:Eh;
    destruct (o_tex o =? 0) eqn:Et;
    destruct (o_upd o <? 0) eqn:Eu;
    frame_setup Hnext;
    first [ reflexivity
          | exfalso;
            repeat match goal with
                   | H : negb ?c = _, H' : ?c = _ |- _ => rewrite H' in H
                   end;
            discriminate ].
Qed.

(** X11, a frame on an idle display.  When a frame is submitted to a display
    thread that sits in its loop on an empty queue and [SDL_WaitEvent]
    works, the display thread makes exactly the resize and upload calls the
    frame asks for, and the call returns: -1 with the feedback at
    [FDBK_FAIL] if the resize the frame needs, or else the upload, fails;
    otherwise 0 with the feedback at [FDBK_OK] and the size of the frame as
    the current size. *)
Theorem X11_frame_round_trip (frame width height size rc : Z)
    (sched1 rest : list sdl_outcomes) (o : sdl_outcomes) (s : state)
    (cur : SDL_Event) :
  frame <> 0 ->
  initialized s = true ->
  thread s = T_running cur ->
  queue s = [] ->
  o_wait o <> 0 ->
  let e := mk_event (event_frame s) frame (mk_size width height) in
  let '(r, s', l) := submit frame width height size rc sched1 (o :: rest) s in
  proj Renderer is_resize_or_upload l = frame_calls o e s
  /\ if frame_fails o e s then
       r = Some (-1) /\ display_fdbk s' = FDBK_FAIL
     else
       r = Some 0 /\ display_fdbk s' = FDBK_OK
       /\ (current_width s', current_height s') = (width, height).
Proof.
  intros Hframe Hinit Hpc Hq Hw e.
  unfold submit, video_display_frame.
  apply Z.eqb_neq in Hframe. rewrite Hframe.
  unfold bind, rd, wr, emit, gets, modify, ret, SDL_PushEvent.
  cbn -[await_feedback]. rewrite Hinit. cbn -[await_feedback].
  fold e. change (set_queue _ _) with (pushed e s).
  unfold await_feedback, bind, pthread_mutex_lock, pthread_mutex_unlock, emit.
  cbn [wait_loop].
  unfold bind, rd, emit, gets, ret, pthread_cond_wait, run_as.
  cbn -[renderer_step wait_loop].
  assert (Hnext : frame_event_next o (pushed e s) e).
  { unfold frame_event_next, pushed. cbn. rewrite Hq. cbn.
    repeat split; eauto. }
  pose proof (frame_step_outcome o (pushed e s) e Hnext) as Hout.
  pose proof (frame_step_calls o (pushed e s) e Hnext) as Hcalls.
  destruct (renderer_step o Renderer (pushed e s)) as [[u s1] l1].
  cbn [fst snd] in Hout, Hcalls.
  change (frame_fails o e (pushed e s)) with (frame_fails o e s) in Hout.
  change (frame_calls o e (pushed e s)) with (frame_calls o e s) in Hcalls.
  assert (Hready : display_fdbk s1 <> FDBK_NONE).
  { destruct (frame_fails o e s); destruct Hout as (-> & _); discriminate. }
  rewrite (wait_loop_ready_full rest s1 Hready). cbn -[proj].
  split.
  - repeat (rewrite proj_renderer_skip || rewrite proj_app).
    rewrite Hcalls. cbn [proj filter map app]. rewrite ?app_nil_r. reflexivity.
  - destruct (frame_fails o e s).
    + destruct Hout as (Hfb & _). rewrite Hfb. auto.
    + destruct Hout as (Hfb & _ & _ & Hsize & _). rewrite Hfb.
      repeat split; assumption.
Qed.

(** ** The first frame of a session *)

(** A successful startup: what it builds and what it leaves. *)
Lemma startup_step_ok (o : sdl_outcomes) (s : state) :
  thread s = T_starting ->
  startup_fails o s = false ->
  let '(_, s1, l1) := renderer_step o Renderer s in
  proj Renderer is_resize_or_upload l1
  = [ A_SDL_SetWindowSize (o_win o) (current_width s) (current_height s);
      A_SDL_CreateTexture (o_ren o) (current_width s) (current_height s)
        (o_tex o) ]
  /\ display_fdbk s1 = FDBK_OK
  /\ initialized s1 = true
  /\ thread s1 = T_running (o_stack o)
  /\ event_frame s1 = o_reg o
  /\ queue s1 = queue s
  /\ frameTex s1 = o_tex o
  /\ (current_width s1, current_height s1)
     = (current_width s, current_height s).
Proof.
  intros Hpc. rewrite startup_fails_spec. intros H.
  repeat (apply orb_false_iff in H; destruct H as [H ?]).
  unfold_model. rewrite Hpc. crunch. repeat split.
Qed.

(** A delivered frame of the current size: uploaded as it is. *)
Lemma same_size_step (o : sdl_outcomes) (s : state) (e : SDL_Event) :
  frame_event_next o s e ->
  size_differs e s = false ->
  let '(_, s1, l1) := renderer_step o Renderer s in
  proj Renderer is_resize_or_upload l1
  = [ A_SDL_UpdateTexture (frameTex s) (data1 e) (current_width s) (o_upd o) ]
  /\ display_fdbk s1 = (if o_upd o <? 0 then FDBK_FAIL else FDBK_OK).
Proof.
  intros Hnext Hsame. unfold size_differs in Hsame.
  apply orb_false_iff in Hsame. destruct Hsame as [Ew Eh].
  apply negb_false_iff in Ew. apply negb_false_iff in Eh.
  destruct (o_upd o <? 0) eqn:Eu;
    frame_setup Hnext; repeat split.
  all: exfalso;
    repeat match goal with
           | H : negb ?c = _, H' : ?c = _ |- _ => rewrite H' in H
           end;
    discriminate.
Qed.

(** X12, the first frame of a session.  When the first frame is submitted
    (no thread yet, an empty queue), [pthread_create] and the startup
    succeed and the first [SDL_WaitEvent] works, the call returns after the
    startup quantum and one more: the window and the texture are built once,
    with the size of the frame, and the frame is uploaded into that texture
    with no further resize.  The result is 0, or -1 when the upload fails. *)
Theorem X12_first_frame (frame width height size : Z)
    (o1 o2 : sdl_outcomes) (rest1 rest2 : list sdl_outcomes) (s : state) :
  frame <> 0 ->
  initialized s = false ->
  queue s = [] ->
  startup_fails o1 (started width height s) = false ->
  o_wait o2 <> 0 ->
  let '(r, s', l) :=
    submit frame width height size 0 (o1 :: rest1) (o2 :: rest2) s in
  r = Some (if o_upd o2 <? 0 then -1 else 0)
  /\ proj Renderer is_resize_or_upload l
     = [ A_SDL_SetWindowSize (o_win o1) width height;
         A_SDL_CreateTexture (o_ren o1) width height (o_tex o1);
         A_SDL_UpdateTexture (o_tex o1) frame width (o_upd o2) ].
Proof.
  intros Hframe Hinit Hq Hok Hw.
  unfold submit, video_display_frame, video_display_create_thread.
  apply Z.eqb_neq in Hframe. rewrite Hframe.
  unfold bind, rd, wr, emit, gets, modify, ret, SDL_PushEvent.
  cbn -[await_feedback]. rewrite Hinit. cbn -[await_feedback].
  fold (started width height s).
  unfold await_feedback at 1.
  cbn [wait_loop].
  unfold bind, rd, emit, gets, ret, pthread_cond_wait, run_as,
    pthread_mutex_lock, pthread_mutex_unlock.
  cbn -[renderer_step wait_loop await_feedback proj].
  pose proof (startup_step_ok o1 (started width height s) eq_refl Hok) as H1.
  destruct (renderer_step o1 Renderer (started width height s))
    as [[u1 s1] l1].
  destruct H1 as (Hl1 & Hfb1 & Hi1 & Hpc1 & Hef1 & Hq1 & Htex1 & Hsz1).
  cbn in Hl1, Hq1, Hsz1.
  assert (Hready1 : display_fdbk s1 <> FDBK_NONE)
    by (rewrite Hfb1; discriminate).
  rewrite (wait_loop_ready_full rest1 s1 Hready1).
  cbn -[await_feedback proj]. rewrite Hfb1. cbn -[await_feedback proj].
  set (e := mk_event (event_frame s1) frame (mk_size width height)).
  change (set_queue _ _) with (pushed e s1).
  unfold await_feedback.
  cbn [wait_loop].
  unfold bind, rd, emit, gets, ret, pthread_cond_wait, run_as,
    pthread_mutex_lock, pthread_mutex_unlock.
  cbn -[renderer_step wait_loop proj].
  assert (Hnext : frame_event_next o2 (pushed e s1) e).
  { unfold frame_event_next, pushed. cbn. rewrite Hq1, Hq. cbn.
    repeat split; eauto. }
  assert (Hsame : size_differs e (pushed e s1) = false).
  { unfold size_differs, pushed. cbn. injection Hsz1 as -> ->.
    rewrite !Z.eqb_refl. reflexivity. }
  pose proof (same_size_step o2 (pushed e s1) e Hnext Hsame) as H2.
  destruct (renderer_step o2 Renderer (pushed e s1)) as [[u2 s2] l2].
  destruct H2 as (Hl2 & Hfb2).
  cbn in Hl2.
  assert (Hready2 : display_fdbk s2 <> FDBK_NONE).
  { rewrite Hfb2. destruct (o_upd o2 <? 0); discriminate. }
  rewrite (wait_loop_ready_full rest2 s2 Hready2).
  cbn -[proj]. rewrite Hfb2.
  split.
  - destruct (o_upd o2 <? 0); reflexivity.
  - repeat (rewrite proj_renderer_skip || rewrite proj_app).
    rewrite Hl1, Hl2, Htex1. injection Hsz1 as -> _.
    reflexivity.
Qed.

(** ** Handles that are NULL or stale *)

(** X13, drawing after a failed resize.  When the texture for a frame of a
    new size cannot be built, the old texture is already destroyed and
    [frameTex] is NULL; the redraw that ends this last iteration still runs
    and copies that NULL texture. *)
Theorem X13_null_texture_drawn (o : sdl_outcomes) (s : state)
    (e : SDL_Event) :
  frame_event_next o s e ->
  size_differs e s = true ->
  o_tex o = 0 ->
  let '(_, s', l) := renderer_step o Renderer s in
  frameTex s' = 0
  /\ proj Renderer is_render l
     = [ A_SDL_RenderClear (renderer s);
         A_SDL_RenderCopy (renderer s) 0;
         A_SDL_RenderPresent (renderer s) ]
  /\ textures_destroyed l = [frameTex s; 0].
Proof.
  intros Hnext Hdiff Htex. unfold size_differs in Hdiff.
  apply Z.eqb_eq in Htex.
  destruct (vw (data2 e) =? current_width s) eqn:Ew;
    destruct (vh (data2 e) =? current_height s) eqn:Eh;
    try discriminate Hdiff;
    frame_setup Hnext; eqb_props;
    repeat split; try congruence.
  all: exfalso;
    repeat match goal with
           | H : negb ?c = _, H' : ?c = _ |- _ => rewrite H' in H
           end;
    try discriminate; congruence.
Qed.

(** X14, stale handles.  The exit sequence never resets [win], [renderer]
    and [frameTex].  So when a display thread has ended and the thread of
    the next session fails in [SDL_Init], that thread's exit sequence hands
    the handles the first one has already destroyed to the destroy calls
    again, and calls [SDL_Quit] although SDL was not initialised. *)
Theorem X14_stale_handles (o o' : sdl_outcomes) (s : state)
    (width height : Z) :
  iteration_next o s ->
  o_init o' < 0 ->
  let '(_, s1, l1) := renderer_step o Renderer s in
  thread s1 = T_none ->
  (exists pre, proj Renderer is_release_call l1 = pre ++ clean_actions s1)
  /\ proj Renderer is_release_call
       (snd (renderer_step o' Renderer (started width height s1)))
     = clean_actions s1.
Proof.
  intros Hnext Hinit. apply Z.ltb_lt in Hinit.
  iteration_setup Hnext o s; intros Hgone; try discriminate Hgone.
  all: split; [ | reflexivity ].
  all: match goal with
       | |- exists pre, ?l = _ =>
           exists (firstn (length l - 4) l); reflexivity
       end.
Qed.

(** X11 on the second frame of the session: 0, and the size is the new
    one. *)
Lemma X11_frame_round_trip_witness :
  fst (fst (submit 8 1280 720 1382400 0 [] [sdl_ok] after_first_frame))
  = Some 0
  /\ current_width
       (snd (fst (submit 8 1280 720 1382400 0 [] [sdl_ok] after_first_frame)))
     = 1280.
Proof.
  assert (H8 : 8 <> 0) by lia.
  assert (Hw : o_wait sdl_ok <> 0) by (cbn; lia).
  pose proof (X11_frame_round_trip 8 1280 720 1382400 0 [] [] sdl_ok
                after_first_frame _ H8 eq_refl eq_refl eq_refl Hw) as H.
  destruct (submit 8 1280 720 1382400 0 [] [sdl_ok] after_first_frame)
    as [[r s'] l].
  destruct H as (_ & Hr & _ & Hsize).
  split; [exact Hr | exact (f_equal fst Hsize)].
Defined.

(** X12 on the first frame of a fresh session. *)
Lemma X12_first_frame_witness :
  fst (fst (submit 7 640 480 460800 0 [sdl_ok] [sdl_ok] fresh)) = Some 0
  /\ proj Renderer is_resize_or_upload
       (snd (submit 7 640 480 460800 0 [sdl_ok] [sdl_ok] fresh))
     = [ A_SDL_SetWindowSize 1 640 480;
         A_SDL_CreateTexture 2 640 480 3;
         A_SDL_UpdateTexture 3 7 640 0 ].
Proof.
  assert (H7 : 7 <> 0) by lia.
  assert (Hw : o_wait sdl_ok <> 0) by (cbn; lia).
  pose proof (X12_first_frame 7 640 480 460800 sdl_ok sdl_ok [] [] fresh
                H7 eq_refl eq_refl eq_refl Hw) as H.
  destruct (submit 7 640 480 460800 0 [sdl_ok] [sdl_ok] fresh) as [[r s'] l].
  exact H.
Defined.

(** X13 on the queued 1280x720 frame when no texture can be built. *)
Lemma X13_null_texture_drawn_witness :
  frame_event_next sdl_no_texture with_resize_request resize_request
  /\ proj Renderer is_render
       (snd (renderer_step sdl_no_texture Renderer with_resize_request))
     = [A_SDL_RenderClear 2; A_SDL_RenderCopy 2 0; A_SDL_RenderPresent 2].
Proof.
  assert (H : frame_event_next sdl_no_texture with_resize_request
                resize_request).
  { unfold frame_event_next. cbn. repeat split; eauto. lia. }
  pose proof (X13_null_texture_drawn sdl_no_texture with_resize_request
                resize_request H eq_refl eq_refl) as H13.
  destruct (renderer_step sdl_no_texture Renderer with_resize_request)
    as [[u s'] l].
  destruct H13 as (_ & Hdraw & _).
  split; [exact H | exact Hdraw].
Defined.

(** X14 on a session that quit, followed by a startup without SDL: the
    handles 3, 2 and 1 are destroyed a second time. *)
Lemma X14_stale_handles_witness :
  iteration_next sdl_ok with_quit_request
  /\ o_init sdl_down < 0
  /\ proj Renderer is_release_call
       (snd (renderer_step sdl_down Renderer
               (started 640 480
                  (snd (fst (renderer_step sdl_ok Renderer
                               with_quit_request))))))
     = [ A_SDL_DestroyTexture 3; A_SDL_DestroyRenderer 2;
         A_SDL_DestroyWindow 1; A_SDL_Quit ].
Proof.
  assert (H : iteration_next sdl_ok with_quit_request).
  { unfold iteration_next. cbn. split; [eauto | right; discriminate]. }
  assert (Hi : o_init sdl_down < 0) by (cbn; lia).
  pose proof (X14_stale_handles sdl_ok sdl_down with_quit_request 640 480
                H Hi) as H14.
  destruct (renderer_step sdl_ok Renderer with_quit_request)
    as [[u s1] l1] eqn:E.
  assert (Hgone : thread s1 = T_none).
  { apply (f_equal (fun x => thread (snd (fst x)))) in E. cbn in E.
    symmetry. exact E. }
  destruct (H14 Hgone) as (_ & Hsecond).
  split; [exact H|]. split; [exact Hi|].
  cbn [fst snd]. rewrite Hsecond.
  apply (f_equal (fun x => clean_actions (snd (fst x)))) in E.
  cbn in E. symmetry. exact E.
Defined.
